(** * MCP-Ghidra5 Windows service: supervised worker lifecycle

    A shallow embedding of [scripts/service/mcp_ghidra5_service.py]
    (class [MCPGhidra5Service]): the stop handler [SvcStop], the worker
    launcher [_start_server], the monitor loop [_monitor_server], the
    restart handler [_handle_server_restart] and the periodic health
    check, followed by the properties of the restart accounting, of the
    shutdown escalation and of the error handling.

    The service object is a record [service]; every method is a
    computation in a small monad that threads the object, may raise a
    Python exception and records what the method does to the outside
    (log entries, process and thread operations) as a list of events.
    What the operating system answers (the clock, whether the worker
    exits in time, whether a launch succeeds) is read from a [world]. *)

From Stdlib Require Import ZArith List Bool Lia QArith.
From Stdlib Require String.
Import ListNotations.
Open Scope Z_scope.

(** ** Time: [datetime] and [timedelta] *)

(** A naive [datetime], as [datetime.now()] returns it, in microseconds
    on the local time line. *)
Definition datetime := Z.

(** A [timedelta] in Python's normal form: [0 <= seconds < 86400] and
    [0 <= microseconds < 1000000]; [days] carries the sign. *)
Record timedelta := mk_timedelta {
  days : Z;
  seconds : Z;
  microseconds : Z
}.

Definition us_per_second : Z := 1000000.
Definition us_per_day : Z := 86400 * us_per_second.

(** [a - b] on two datetimes. *)
Definition datetime_sub (a b : datetime) : timedelta :=
  let us := a - b in
  {| days := us / us_per_day;
     seconds := (us mod us_per_day) / us_per_second;
     microseconds := us mod us_per_second |}.

(** ** Configuration

    The options of the [service] and [server] sections that the
    supervisor reads with [getint] and [getboolean], already parsed. *)
Record config := mk_config {
  auto_restart : bool;
  restart_delay : Z;
  max_restarts : Z;
  restart_window : Z;
  health_check_interval : Z;
  enable_monitoring : bool;
  shutdown_timeout : Z;
  max_memory_mb : Z
}.

(** The defaults of [_load_configuration] and the [fallback=] values. *)
Definition default_config : config :=
  {| auto_restart := true;
     restart_delay := 30;
     max_restarts := 5;
     restart_window := 3600;
     health_check_interval := 60;
     enable_monitoring := true;
     shutdown_timeout := 15;
     max_memory_mb := 2048 |}.

(** ** Exceptions, log entries and events *)

(** The exception classes that occur; all derive from [Exception]. *)
Inductive exn :=
| FileNotFoundError   (* the server script is on none of the paths *)
| OSError             (* a process operation refused by the system *)
| RuntimeError        (* "cannot join current thread" *)
| ValueError          (* "sleep length must be non-negative" *)
| TimeoutExpired      (* subprocess.TimeoutExpired *)
| NoSuchProcess       (* psutil.NoSuchProcess *)
| AccessDenied.       (* psutil.AccessDenied *)

Inductive severity := Info | Warning | Error.

(** One constructor per message text of the module, with the values the
    f-string interpolates. *)
Inductive message :=
| MsgStopRequested                        (* Service stop requested *)
| MsgAttemptGraceful                      (* Attempting graceful server shutdown *)
| MsgShutDownGracefully                   (* Server shut down gracefully *)
| MsgForcingTermination                   (* Server did not shut down gracefully, forcing termination *)
| MsgShutdownError (e : exn)              (* Error during server shutdown: e *)
| MsgServiceStopped                       (* Service stopped *)
| MsgServiceStarting                      (* MCP Ghidra5 Service starting... *)
| MsgMonitoringStarted                    (* Server monitoring started *)
| MsgExecutionError (e : exn)             (* Service execution error: e *)
| MsgExecutionCompleted                   (* Service execution completed *)
| MsgStartingServer                       (* Starting server: cmd *)
| MsgServerStarted (pid : Z)              (* Server started with PID: pid *)
| MsgFailedToStart (e : exn)              (* Failed to start server: e *)
| MsgMonitorThreadStarted                 (* Server monitoring thread started *)
| MsgProcessTerminated (code : Z)         (* Server process terminated with exit code: code *)
| MsgAutoRestartDisabled                  (* Auto-restart disabled, stopping service *)
| MsgMonitoringError (e : exn)            (* Error in server monitoring: e *)
| MsgMonitorThreadStopped                 (* Server monitoring thread stopped *)
| MsgMaxRestartsExceeded (m w : Z)        (* Maximum restarts (m) exceeded in ws window. Stopping service. *)
| MsgRestarting (delay attempt : Z)       (* Restarting server in delay seconds (attempt n) *)
| MsgRestarted (attempt : Z)              (* Server restarted successfully (attempt n) *)
| MsgFailedToRestart (e : exn)            (* Failed to restart server: e *)
| MsgMemoryExceeds (rss limit : Z)        (* Server memory usage (..MB) exceeds limit (..MB) *)
| MsgHighCpu (cpu : Q)                    (* High server CPU usage: ..% *)
| MsgNoLongerExists                       (* Server process no longer exists *)
| MsgProcessInfoError (e : exn)           (* Error getting process info: e *)
| MsgHealthCheckError (e : exn).          (* Error in health check: e *)

Inductive service_status := SERVICE_RUNNING | SERVICE_STOP_PENDING.

(** What a method does to the outside, in program order. [Log] is one
    call of [_log_info], [_log_warning] or [_log_error] (the service log
    and the Windows event log together). *)
Inductive event :=
| Log (sev : severity) (m : message)
| ReportServiceStatus (st : service_status)
| SetEvent                                (* win32event.SetEvent(hWaitStop) *)
| WaitForSingleObject (ms : Z)
| Terminate (pid : Z)                     (* server_process.terminate() *)
| Wait (pid : Z) (timeout : Z)            (* server_process.wait(timeout=..) *)
| Kill (pid : Z)                          (* server_process.kill() *)
| Join (timeout : Z)                      (* monitor_thread.join(timeout=..) *)
| Sleep (secs : Z)                        (* time.sleep(secs) *)
| Popen (pid : Z)                         (* subprocess.Popen(cmd, ...) *)
| StartThread.                            (* monitor_thread.start() *)

(** ** The service object *)

Record service := mk_service {
  is_alive : bool;
  server_process : option Z;        (* the Popen object, by its pid *)
  monitor_thread : bool;            (* [monitor_thread is not None] *)
  restart_count : Z;
  last_restart : option datetime;
  hWaitStop : bool                  (* the auto-reset event is signaled *)
}.

(** The object as [__init__] leaves it. *)
Definition init_service : service :=
  {| is_alive := true;
     server_process := None;
     monitor_thread := false;
     restart_count := 0;
     last_restart := None;
     hWaitStop := false |}.

Definition set_is_alive (b : bool) (s : service) : service :=
  mk_service b (server_process s) (monitor_thread s) (restart_count s)
             (last_restart s) (hWaitStop s).
Definition set_server_process (p : option Z) (s : service) : service :=
  mk_service (is_alive s) p (monitor_thread s) (restart_count s)
             (last_restart s) (hWaitStop s).
Definition set_monitor_thread (b : bool) (s : service) : service :=
  mk_service (is_alive s) (server_process s) b (restart_count s)
             (last_restart s) (hWaitStop s).
Definition set_restart_count (n : Z) (s : service) : service :=
  mk_service (is_alive s) (server_process s) (monitor_thread s) n
             (last_restart s) (hWaitStop s).
Definition set_last_restart (t : option datetime) (s : service) : service :=
  mk_service (is_alive s) (server_process s) (monitor_thread s)
             (restart_count s) t (hWaitStop s).
Definition set_hWaitStop (b : bool) (s : service) : service :=
  mk_service (is_alive s) (server_process s) (monitor_thread s)
             (restart_count s) (last_restart s) b.

(** ** The outside world *)

Inductive wait_outcome := WaitExited | WaitTimeout.

Inductive launch_outcome :=
| LaunchOk (pid : Z)          (* Popen returns a process *)
| ScriptNotFound              (* no candidate path exists *)
| PopenFails (e : exn).       (* Popen raises *)

(** What [psutil] answers to one health check. *)
Inductive sample_outcome :=
| ProcessRaises (e : exn)               (* psutil.Process(pid) raises *)
| MemoryInfoRaises (e : exn)            (* proc.memory_info() raises *)
| CpuPercentRaises (rss : Z) (e : exn)  (* proc.cpu_percent() raises *)
| Sampled (rss : Z) (cpu : Q).

(** The answers of the operating system during one call. *)
Record world := mk_world {
  now : datetime;                   (* datetime.now() *)
  poll : option Z;                  (* server_process.poll() *)
  terminate_raises : option exn;
  wait_result : wait_outcome;
  kill_raises : option exn;
  monitor_alive : bool;             (* monitor_thread.is_alive(), seen from another thread *)
  launch : launch_outcome;
  sample : sample_outcome
}.

(** The thread that runs a method: the service control handler, the
    service main thread ([SvcDoRun]) or the monitor thread. *)
Inductive thread := ControlThread | MainThread | MonitorThread.

(** ** The monad: service object, exceptions, events *)

Inductive result (A : Type) :=
| Ok (a : A)
| Raise (e : exn).
Arguments Ok {A} a.
Arguments Raise {A} e.

Definition M (A : Type) : Type := service -> result A * service * list event.

Definition ret {A} (a : A) : M A := fun s => (Ok a, s, []).

Definition bind {A B} (m : M A) (f : A -> M B) : M B :=
  fun s =>
    match m s with
    | (Ok a, s1, t1) =>
        match f a s1 with
        | (r, s2, t2) => (r, s2, t1 ++ t2)
        end
    | (Raise e, s1, t1) => (Raise e, s1, t1)
    end.

Definition raise {A} (e : exn) : M A := fun s => (Raise e, s, []).

(** [try: m  except: h e] for the exceptions that [h] handles; the
    others propagate. *)
Definition try_except {A} (m : M A) (h : exn -> option (M A)) : M A :=
  fun s =>
    match m s with
    | (Ok a, s1, t1) => (Ok a, s1, t1)
    | (Raise e, s1, t1) =>
        match h e with
        | Some k =>
            match k s1 with
            | (r, s2, t2) => (r, s2, t1 ++ t2)
            end
        | None => (Raise e, s1, t1)
        end
    end.

(** [try: m  finally: k]. *)
Definition try_finally {A} (m : M A) (k : M unit) : M A :=
  fun s =>
    match m s with
    | (r, s1, t1) =>
        match k s1 with
        | (Ok _, s2, t2) => (r, s2, t1 ++ t2)
        | (Raise e, s2, t2) => (Raise e, s2, t1 ++ t2)
        end
    end.

Definition get : M service := fun s => (Ok s, s, []).
Definition modify (f : service -> service) : M unit := fun s => (Ok tt, f s, []).
Definition emit (e : event) : M unit := fun s => (Ok tt, s, [e]).

Declare Scope svc_scope.
Delimit Scope svc_scope with svc.
Notation "x <- m ;; k" := (bind m (fun x => k))
  (at level 61, m at next level, right associativity) : svc_scope.
Notation "m ;; k" := (bind m (fun _ => k))
  (at level 61, right associativity) : svc_scope.
Open Scope svc_scope.

(** [except Exception as e:] and the bare [except:]. *)
Definition except_Exception {A} (k : exn -> M A) : exn -> option (M A) :=
  fun e => Some (k e).

(** [except subprocess.TimeoutExpired:]. *)
Definition except_TimeoutExpired {A} (k : M A) : exn -> option (M A) :=
  fun e => match e with TimeoutExpired => Some k | _ => None end.

(** [except psutil.NoSuchProcess: k1] followed by [except Exception as e: k2]. *)
Definition except_NoSuchProcess_or {A} (k1 : M A) (k2 : exn -> M A)
  : exn -> option (M A) :=
  fun e => match e with NoSuchProcess => Some k1 | _ => Some (k2 e) end.

Definition _log_info (m : message) : M unit := emit (Log Info m).
Definition _log_error (m : message) : M unit := emit (Log Error m).
Definition _log_warning (m : message) : M unit := emit (Log Warning m).

(** ** Process, thread and clock primitives *)

(** [time.sleep(secs)]; a negative length raises [ValueError]. While the
    calling thread sleeps, the other threads run: [during] is what they
    do to the service object meanwhile. Their exceptions are theirs. *)
Definition other_thread (m : M unit) : M unit :=
  fun s => match m s with (_, s1, t1) => (Ok tt, s1, t1) end.

Definition time_sleep (during : M unit) (secs : Z) : M unit :=
  if secs <? 0 then raise ValueError
  else emit (Sleep secs) ;; other_thread during.

Definition process_terminate (w : world) (p : Z) : M unit :=
  emit (Terminate p) ;;
  match terminate_raises w with Some e => raise e | None => ret tt end.

Definition process_wait (w : world) (p : Z) (timeout : Z) : M unit :=
  emit (Wait p timeout) ;;
  match wait_result w with
  | WaitExited => ret tt
  | WaitTimeout => raise TimeoutExpired
  end.

Definition process_kill (w : world) (p : Z) : M unit :=
  emit (Kill p) ;;
  match kill_raises w with Some e => raise e | None => ret tt end.

(** [monitor_thread.is_alive()]: the thread that asks is alive. *)
Definition thread_is_alive (caller : thread) (w : world) : bool :=
  match caller with
  | MonitorThread => true
  | _ => monitor_alive w
  end.

(** [monitor_thread.join(timeout=..)]: a thread cannot join itself. *)
Definition thread_join (caller : thread) (timeout : Z) : M unit :=
  match caller with
  | MonitorThread => raise RuntimeError
  | _ => emit (Join timeout)
  end.

(** ** [SvcStop] *)

Definition SvcStop (cfg : config) (w : world) (caller : thread) : M unit :=
  _log_info MsgStopRequested ;;
  (* Signal the service to stop *)
  emit (ReportServiceStatus SERVICE_STOP_PENDING) ;;
  emit SetEvent ;;
  modify (set_hWaitStop true) ;;
  (* Stop the server process *)
  modify (set_is_alive false) ;;
  self <- get ;;
  match server_process self with
  | Some p =>
      try_except
        (_log_info MsgAttemptGraceful ;;
         (* a Popen object always has [terminate] *)
         process_terminate w p ;;
         try_except
           (process_wait w p (shutdown_timeout cfg) ;;
            _log_info MsgShutDownGracefully)
           (except_TimeoutExpired
              (_log_warning MsgForcingTermination ;;
               process_kill w p)))
        (except_Exception (fun e => _log_error (MsgShutdownError e)))
  | None => ret tt
  end ;;
  (* Wait for monitor thread to finish *)
  (if monitor_thread self && thread_is_alive caller w
   then thread_join caller 5
   else ret tt) ;;
  _log_info MsgServiceStopped.

(** ** [_start_server] *)

Definition _start_server (w : world) : M unit :=
  try_except
    (match launch w with
     | ScriptNotFound => raise FileNotFoundError
     | PopenFails e =>
         _log_info MsgStartingServer ;;
         raise e
     | LaunchOk p =>
         _log_info MsgStartingServer ;;
         emit (Popen p) ;;
         modify (set_server_process (Some p)) ;;
         _log_info (MsgServerStarted p)
     end)
    (except_Exception (fun e => _log_error (MsgFailedToStart e) ;; raise e)).

(** ** [_handle_server_restart] *)

(** The test of the restart window:
    [self.last_restart and (current_time - self.last_restart).seconds < restart_window]. *)
Definition within_restart_window (self : service) (current_time : datetime)
    (window : Z) : bool :=
  match last_restart self with
  | Some t => seconds (datetime_sub current_time t) <? window
  | None => false
  end.

(** [min(base_delay * (2 ** (restart_count - 1)), 300)]. The count is at
    least 1 here (see [restart_count_pos]), so the power is an integer. *)
Definition backoff_delay (base_delay count : Z) : Z :=
  Z.min (base_delay * 2 ^ (count - 1)) 300.

(** The method, with what the other threads do during its
    [time.sleep(restart_delay)]. *)
Definition handle_server_restart_during (during : M unit)
    (cfg : config) (w : world) : M unit :=
  let current_time := now w in
  (* Check restart window *)
  self <- get ;;
  (if within_restart_window self current_time (restart_window cfg)
   then modify (set_restart_count (restart_count self + 1))
   else modify (set_restart_count 1)) ;;
  self <- get ;;
  if restart_count self >? max_restarts cfg then
    _log_error (MsgMaxRestartsExceeded (max_restarts cfg) (restart_window cfg)) ;;
    SvcStop cfg w MonitorThread
  else
    (* Calculate restart delay with exponential backoff *)
    let delay := backoff_delay (restart_delay cfg) (restart_count self) in
    _log_info (MsgRestarting delay (restart_count self)) ;;
    time_sleep during delay ;;
    try_except
      (self <- get ;;
       (* Clean up old process *)
       match server_process self with
       | Some p =>
           try_except (process_kill w p) (except_Exception (fun _ => ret tt))
       | None => ret tt
       end ;;
       (* Start new process *)
       _start_server w ;;
       modify (set_last_restart (Some current_time)) ;;
       self <- get ;;
       _log_info (MsgRestarted (restart_count self)))
      (except_Exception (fun e => _log_error (MsgFailedToRestart e))).

Definition _handle_server_restart (cfg : config) (w : world) : M unit :=
  handle_server_restart_during (ret tt) cfg w.

(** ** [_monitor_server] *)

Inductive loop_ctl := Continue | Break.

(** The [try] block of one pass through [while self.is_alive:], with
    what the other threads do during a restart delay. *)
Definition monitor_body_during (during : M unit)
    (cfg : config) (w : world) : M loop_ctl :=
  self <- get ;;
  ctl <- match server_process self, poll w with
         | Some _, Some exit_code =>
             (* Process has terminated *)
             _log_error (MsgProcessTerminated exit_code) ;;
             if auto_restart cfg then
               handle_server_restart_during during cfg w ;;
               ret Continue
             else
               _log_info MsgAutoRestartDisabled ;;
               SvcStop cfg w MonitorThread ;;
               ret Break
         | _, _ => ret Continue
         end ;;
  match ctl with
  | Break => ret Break
  | Continue =>
      (* Health check interval *)
      time_sleep (ret tt) (health_check_interval cfg) ;;
      ret Continue
  end.

(** One pass: the [try] block and its [except Exception] handler. *)
Definition monitor_iteration_during (during : M unit)
    (cfg : config) (w : world) : M loop_ctl :=
  try_except
    (monitor_body_during during cfg w)
    (except_Exception
       (fun e =>
          _log_error (MsgMonitoringError e) ;;
          time_sleep (ret tt) 30 ;;
          ret Continue)).

Definition monitor_body (cfg : config) (w : world) : M loop_ctl :=
  monitor_body_during (ret tt) cfg w.

Definition monitor_iteration (cfg : config) (w : world) : M loop_ctl :=
  monitor_iteration_during (ret tt) cfg w.

(** The loop, one [world] per pass. The result tells whether the loop
    was left ([true]) or the observations ran out first ([false]). *)
Fixpoint monitor_loop (cfg : config) (ws : list world) : M bool :=
  self <- get ;;
  if is_alive self then
    match ws with
    | [] => ret false
    | w :: ws' =>
        ctl <- monitor_iteration cfg w ;;
        match ctl with
        | Break => ret true
        | Continue => monitor_loop cfg ws'
        end
    end
  else ret true.

Definition _monitor_server (cfg : config) (ws : list world) : M bool :=
  _log_info MsgMonitorThreadStarted ;;
  left <- monitor_loop cfg ws ;;
  if left : bool then _log_info MsgMonitorThreadStopped ;; ret true
  else ret false.

(** ** [_periodic_health_check] *)

Definition psutil_Process (w : world) : M unit :=
  match sample w with
  | ProcessRaises e => raise e
  | _ => ret tt
  end.

Definition memory_info_rss (w : world) : M Z :=
  match sample w with
  | ProcessRaises e | MemoryInfoRaises e => raise e
  | CpuPercentRaises rss _ | Sampled rss _ => ret rss
  end.

Definition cpu_percent (w : world) : M Q :=
  match sample w with
  | ProcessRaises e | MemoryInfoRaises e | CpuPercentRaises _ e => raise e
  | Sampled _ cpu => ret cpu
  end.

Definition Qgtb (x y : Q) : bool := negb (Qle_bool x y).

(** [proc.memory_info().rss / (1024 * 1024)], as an exact quotient. *)
Definition memory_mb (rss : Z) : Q := (inject_Z rss / inject_Z (1024 * 1024))%Q.

Definition _periodic_health_check (cfg : config) (w : world) : M unit :=
  try_except
    (self <- get ;;
     match server_process self with
     | Some _ =>
         (* Check if process is still running *)
         match poll w with
         | None =>
             try_except
               (psutil_Process w ;;
                (* Check memory usage *)
                rss <- memory_info_rss w ;;
                (if Qgtb (memory_mb rss) (inject_Z (max_memory_mb cfg))
                 then _log_warning (MsgMemoryExceeds rss (max_memory_mb cfg))
                 else ret tt) ;;
                (* Check CPU usage *)
                cpu <- cpu_percent w ;;
                if Qgtb cpu (inject_Z 80)
                then _log_warning (MsgHighCpu cpu)
                else ret tt)
               (except_NoSuchProcess_or
                  (_log_error MsgNoLongerExists)
                  (fun e => _log_warning (MsgProcessInfoError e)))
         | Some _ => ret tt
         end
     | None => ret tt
     end)
    (except_Exception (fun e => _log_error (MsgHealthCheckError e))).

(** ** [SvcDoRun] *)

(** One pass through the main service loop: wait on the stop event for
    30 seconds, leave when it is signaled, otherwise check the health. *)
Definition service_loop_iteration (cfg : config) (w : world) : M loop_ctl :=
  emit (WaitForSingleObject 30000) ;;
  self <- get ;;
  if hWaitStop self then
    (* Stop event was signaled; the event resets itself *)
    modify (set_hWaitStop false) ;;
    ret Break
  else
    (* Perform periodic health checks *)
    _periodic_health_check cfg w ;;
    ret Continue.

Fixpoint service_loop (cfg : config) (ws : list world) : M bool :=
  self <- get ;;
  if is_alive self then
    match ws with
    | [] => ret false
    | w :: ws' =>
        ctl <- service_loop_iteration cfg w ;;
        match ctl with
        | Break => ret true
        | Continue => service_loop cfg ws'
        end
    end
  else ret true.

Definition SvcDoRun (cfg : config) (w0 : world) (ws : list world) : M bool :=
  _log_info MsgServiceStarting ;;
  try_finally
    (try_except
       ((* Report running status *)
        emit (ReportServiceStatus SERVICE_RUNNING) ;;
        (* Start the server *)
        _start_server w0 ;;
        (* Start monitoring thread if enabled *)
        (if enable_monitoring cfg then
           modify (set_monitor_thread true) ;;
           emit StartThread ;;
           _log_info MsgMonitoringStarted
         else ret tt) ;;
        (* Main service loop *)
        service_loop cfg ws)
       (except_Exception
          (fun e => _log_error (MsgExecutionError e) ;; raise e)))
    (_log_info MsgExecutionCompleted).

(** ** Observing a run *)

Definition result_of {A} (r : result A * service * list event) : result A :=
  fst (fst r).
Definition state_of {A} (r : result A * service * list event) : service :=
  snd (fst r).
Definition trace_of {A} (r : result A * service * list event) : list event :=
  snd r.

Definition is_popen (e : event) : bool :=
  match e with Popen _ => true | _ => false end.
Definition is_log (e : event) : bool :=
  match e with Log _ _ => true | _ => false end.

(** The number of worker processes a run launches. *)
Definition launches (tr : list event) : nat := length (filter is_popen tr).

(** The log entries a run writes. *)
Definition log_entries (tr : list event) : list event := filter is_log tr.

(** The restart delays of a run: what [time.sleep] is called with right
    after each "Restarting server in .. seconds" entry. *)
Fixpoint backoff_sleeps (tr : list event) : list Z :=
  match tr with
  | [] => []
  | e :: rest =>
      match e, rest with
      | Log Info (MsgRestarting _ _), Sleep d :: _ => d :: backoff_sleeps rest
      | _, _ => backoff_sleeps rest
      end
  end.

(** The severities at which a message is logged in a run. *)
Definition severities_of (m : message -> bool) (tr : list event) : list severity :=
  flat_map (fun e => match e with
                     | Log sev m' => if m m' then [sev] else []
                     | _ => []
                     end) tr.

(** Whether event [a] occurs in a trace and [b] occurs later. *)
Fixpoint occurs_after (a b : event -> bool) (tr : list event) : bool :=
  match tr with
  | [] => false
  | e :: rest => (a e && existsb b rest) || occurs_after a b rest
  end.

(** The service right after [SvcDoRun] started the worker [p] and the
    monitor thread. *)
Definition running_service (p : Z) : service :=
  {| is_alive := true;
     server_process := Some p;
     monitor_thread := true;
     restart_count := 0;
     last_restart := None;
     hWaitStop := false |}.

(** The count that lines 403-408 store: the stored count plus one inside
    the window, 1 otherwise. *)
Definition next_restart_count (cfg : config) (self : service)
    (current_time : datetime) : Z :=
  if within_restart_window self current_time (restart_window cfg)
  then restart_count self + 1
  else 1.

(** The service after [n] counted restarts, the last one decided at [t],
    with worker [p] running. *)
Definition restarted_service (p n : Z) (t : datetime) : service :=
  {| is_alive := true;
     server_process := Some p;
     monitor_thread := true;
     restart_count := n;
     last_restart := Some t;
     hWaitStop := false |}.

(** A world at time [t] in which the worker is found exited with code 1,
    every process operation succeeds and a launch yields process [q]. *)
Definition crash_world (t : datetime) (q : Z) : world :=
  {| now := t;
     poll := Some 1;
     terminate_raises := None;
     wait_result := WaitExited;
     kill_raises := None;
     monitor_alive := true;
     launch := LaunchOk q;
     sample := Sampled 0 0 |}.

(** Crashes in a row as the monitor finds them: at each the worker has
    exited and will be relaunched with success, and each is handled no
    earlier than the previous restart was decided and less than [window]
    seconds after it. *)
Fixpoint rapid_crashes (window : Z) (prev : option datetime)
    (ws : list world) : Prop :=
  match ws with
  | [] => True
  | w :: ws' =>
      (exists c, poll w = Some c) /\
      (exists q, launch w = LaunchOk q) /\
      match prev with
      | Some t => 0 <= now w - t < window * us_per_second
      | None => True
      end /\
      rapid_crashes window (Some (now w)) ws'
  end.

(** The restarts counted so far: none while no restart is recorded. *)
Definition counted (self : service) : Z :=
  match last_restart self with
  | Some _ => restart_count self
  | None => 0
  end.

(** The time of the last of the crashes [ws], or [prev] when none. *)
Definition last_time (prev : option datetime) (ws : list world)
  : option datetime :=
  fold_left (fun _ w => Some (now w)) ws prev.

(** ** Observations used in the statements *)

Definition is_set_event (e : event) : bool :=
  match e with SetEvent => true | _ => false end.



(** The entries of the restart policy: the announced delay and the
    exhausted budget. *)
Definition is_restart_policy_entry (e : event) : bool :=
  match e with
  | Log _ (MsgRestarting _ _) | Log _ (MsgMaxRestartsExceeded _ _)
  | Log _ (MsgRestarted _) | Log _ (MsgFailedToRestart _) => true
  | _ => false
  end.

(** The configuration with other settings of the restart policy. *)
Definition with_restart_policy (delay maxr window : Z) (cfg : config) : config :=
  mk_config (auto_restart cfg) delay maxr window (health_check_interval cfg)
            (enable_monitoring cfg) (shutdown_timeout cfg) (max_memory_mb cfg).

Definition is_forcing_termination (m : message) : bool :=
  match m with MsgForcingTermination => true | _ => false end.

(** What [SvcStop] still does after the forced kill: log the failure of
    the kill if it raised, give the monitor thread five seconds to
    finish (the monitor thread itself cannot: its join raises), and log
    that the service stopped. *)
Definition after_forced_kill (caller : thread) (w : world) (s : service)
  : list event :=
  match kill_raises w with
  | Some e => [Log Error (MsgShutdownError e)]
  | None => []
  end
  ++ (if monitor_thread s && thread_is_alive caller w then
        match caller with
        | MonitorThread => []
        | _ => [Join 5; Log Info MsgServiceStopped]
        end
      else [Log Info MsgServiceStopped]).

(** The exception a health check meets while sampling, if any. *)
Definition sampling_error (o : sample_outcome) : option exn :=
  match o with
  | ProcessRaises e | MemoryInfoRaises e | CpuPercentRaises _ e => Some e
  | Sampled _ _ => None
  end.

(** The entry that reports a sampling error. *)
Definition sampling_error_entry (e : exn) : event :=
  match e with
  | NoSuchProcess => Log Error MsgNoLongerExists
  | _ => Log Warning (MsgProcessInfoError e)
  end.

(** * The rest of the service class *)

(** ** [_get_service_status] *)

(** The class attributes [_svc_name_] and [_svc_display_name_]. *)
Module Names.
Import String.
Definition _svc_name_ : string := "MCPGhidra5Service"%string.
Definition _svc_display_name_ : string := "MCP Ghidra5 Server"%string.
End Names.

(** What [psutil] tells about the worker: [proc.status()], the resident
    set size in bytes (reported in MB, rounded to two places),
    [cpu_percent()], [create_time()] and [num_threads()]. *)
Record process_info := mk_process_info {
  proc_status : String.string;
  proc_rss : Z;
  proc_cpu_percent : Q;
  proc_create_time : datetime;
  proc_num_threads : Z
}.

(** The answer of [psutil] to one status query. *)
Inductive status_probe :=
| ProbeOk (info : process_info)
| ProbeRaises (e : exn).

(** The ['server_process'] entry of the status. *)
Inductive process_entry :=
| NoProcess                                  (* None *)
| ProcessInfo (pid : Z) (info : process_info)
| ProcessError (e : exn).                    (* {'error': str(e)} *)

Inductive run_state := Running | Stopped.

Record status_report := mk_status_report {
  service_name : String.string;
  display_name : String.string;
  status : run_state;
  status_restart_count : Z;
  status_last_restart : option datetime;     (* isoformat(), or None *)
  status_server_process : process_entry
}.

Definition _get_service_status (probe : status_probe) (self : service)
  : status_report :=
  {| service_name := Names._svc_name_;
     display_name := Names._svc_display_name_;
     status := if is_alive self then Running else Stopped;
     status_restart_count := restart_count self;
     status_last_restart := last_restart self;
     status_server_process :=
       match server_process self with
       | Some pid =>
           match probe with
           | ProbeOk info => ProcessInfo pid info
           | ProbeRaises e => ProcessError e
           end
       | None => NoProcess
       end |}.

(** ** [__init__], [_load_configuration] and [_setup_logging] *)

(** The exceptions of the constructor. [self.logger] is assigned by
    [_setup_logging] and nowhere else, so a [_log_info] or [_log_error]
    before that ends in [AttributeError]. *)
Inductive init_exn :=
| AttributeError          (* object has no attribute 'logger' *)
| ConfigParserError       (* config.read cannot parse the file *)
| InitOSError.            (* a directory or file cannot be made *)

(** The entries the constructor logs, with the index of the candidate
    configuration file they are about. *)
Inductive init_message :=
| MsgLoadedConfiguration (i : nat)                 (* Loaded configuration from: path *)
| MsgFailedToLoadConfig (i : nat) (e : init_exn)   (* Failed to load config from path: e *)
| MsgLoggingInitialized                            (* Service logging initialized *)
| MsgFailedToSetupLogging (e : init_exn).          (* Failed to setup advanced logging: e *)

Inductive init_result (A : Type) :=
| Built (a : A)
| InitRaise (e : init_exn).
Arguments Built {A} a.
Arguments InitRaise {A} e.

(** A candidate configuration file: whether [os.path.exists] finds it,
    and what [config.read] makes of the configuration when given it
    (the updated configuration, and the exception if it raises). *)
Record config_file := mk_config_file {
  cf_exists : bool;
  cf_read : config -> config * option init_exn
}.

(** [_log_info] and [_log_error] while the object is built: with no
    [self.logger] yet, [self.logger.info] raises. *)
Definition init_log (logger : bool) (sev : severity) (m : init_message)
  : init_result unit * list (severity * init_message) :=
  if logger then (Built tt, [(sev, m)]) else (InitRaise AttributeError, []).

(** The loop of [_load_configuration] over the candidate paths, from the
    [i]-th on. *)
Fixpoint load_configuration_from (logger : bool) (i : nat)
    (config_paths : list config_file) (conf : config)
  : init_result config * list (severity * init_message) :=
  match config_paths with
  | [] => (Built conf, [])
  | f :: rest =>
      if cf_exists f then
        let (conf', raised) := cf_read f conf in
        (* try: config.read(config_path); self._log_info(..); break *)
        let body :=
          match raised with
          | None => init_log logger Info (MsgLoadedConfiguration i)
          | Some e => (InitRaise e, [])
          end in
        match body with
        | (Built _, t) => (Built conf', t)
        | (InitRaise e, t) =>
            (* except Exception as e: self._log_error(..) *)
            match init_log logger Error (MsgFailedToLoadConfig i e) with
            | (Built _, t') =>
                let (r, t'') := load_configuration_from logger (S i) rest conf' in
                (r, t ++ t' ++ t'')
            | (InitRaise e', t') => (InitRaise e', t ++ t')
            end
        end
      else load_configuration_from logger (S i) rest conf
  end.

Definition _load_configuration (logger : bool) (config_paths : list config_file)
  : init_result config * list (severity * init_message) :=
  load_configuration_from logger 0 config_paths default_config.

(** [_setup_logging]: whatever goes wrong in the [try] block, the
    handler falls back to basic logging; [self.logger] exists
    afterwards. *)
Definition _setup_logging (setup_raises : option init_exn)
  : list (severity * init_message) :=
  match setup_raises with
  | None => [(Info, MsgLoggingInitialized)]
  | Some e => [(Error, MsgFailedToSetupLogging e)]
  end.

(** The constructor: the service state, the configuration, logging, and
    the log directory ([os.makedirs(self.log_path, exist_ok=True)]). The
    choice of the server script is [init_server_script] below. *)
Definition __init__ (config_paths : list config_file)
    (setup_raises makedirs_raises : option init_exn)
  : init_result (service * config) * list (severity * init_message) :=
  let self := init_service in
  (* self.config = self._load_configuration(): no logger yet *)
  match _load_configuration false config_paths with
  | (InitRaise e, t) => (InitRaise e, t)
  | (Built conf, t) =>
      let t' := _setup_logging setup_raises in
      match makedirs_raises with
      | Some e => (InitRaise e, t ++ t')
      | None => (Built (self, conf), t ++ t')
      end
  end.

(** ** The server script *)

Section ServerScript.
Variable path : Type.
Variable path_exists : path -> bool.      (* os.path.exists *)

(** [__init__]: the first of the three possible paths that exists, the
    first of them when none does. *)
Definition init_server_script (p1 p2 p3 : path) : path :=
  match find path_exists [p1; p2; p3] with
  | Some script_path => script_path
  | None => p1
  end.

(** [_start_server]: the script itself when it exists, else the first
    alternative path that does; [None] is the [FileNotFoundError]. *)
Definition resolve_server_script (server_script : path)
    (alternative_paths : list path) : option path :=
  if path_exists server_script then Some server_script
  else find path_exists alternative_paths.
End ServerScript.
Arguments init_server_script {path} path_exists p1 p2 p3.
Arguments resolve_server_script {path} path_exists server_script alternative_paths.

(** * The workers' calls of the chat API

    [call_openai_api] of [src/mcp_ghidra_server_windows.py], the worker
    the service launches, and [query_gpt5_with_retry] of
    [src/ghidra_gpt5_mcp.py], the worker it falls back to. Both loop
    over [range(MAX_RETRIES)]; what the API answers to the request of
    each attempt is read from [responses]. *)

Definition MAX_RETRIES : nat := 3.
Definition RETRY_DELAY : Z := 2.

(** A value the functions hand back: what JSON decoding made of the
    content of the reply, or Python's [None]. A JSON [null] content
    decodes to [None]. *)
Inductive py_value :=
| PyNone                         (* None; JSON null *)
| PyStr (s : String.string)      (* a string *)
| PyOther (tag : Z).             (* any other decoded value, handed through untouched *)

(** The outcome of the [try] block of one attempt. For status 200,
    [content] is [choices[0].message.content] of the decoded body,
    whatever its value, or [None] when decoding the body or reaching
    the content raises (and, in [query_gpt5_with_retry], when
    [choices] is missing or empty). *)
Inductive response :=
| Http200 (content : option py_value)
| Http429                        (* status 429, rate limited *)
| HttpStatus (code : Z)          (* any other status *)
| RequestTimeout                 (* asyncio.TimeoutError *)
| RequestError.                  (* any other exception of the request *)

Inductive api_message :=
| MsgNoApiKey                            (* OPENAI_API_KEY not found in environment variables *)
| MsgApiError (code : Z)                 (* OpenAI API error code: text *)
| MsgApiTimeout (attempt : nat)          (* OpenAI API timeout (attempt n/3) *)
| MsgApiCallFailed (attempt : nat)       (* OpenAI API call failed (attempt n/3): e *)
| MsgResponseReceived (attempt : nat)    (* GPT-5 response received for .. (attempt n) *)
| MsgRateLimited (wait : Z) (attempt : nat)  (* Rate limited, waiting ws before retry n *)
| MsgRequestTimeout (attempt : nat)      (* Request timeout on attempt n *)
| MsgAttemptFailed (attempt : nat).      (* Attempt n failed: e *)

Inductive api_event :=
| Post                            (* session.post(OPENAI_CHAT_ENDPOINT, ..) *)
| AsyncSleep (secs : Z)           (* await asyncio.sleep(secs) *)
| ApiLog (sev : severity) (m : api_message).

(** ** [call_openai_api] *)

(** What [call_openai_api] logs for an attempt that does not return. A
    body of status 200 in which the content cannot be reached raises on
    the subscript and is handled like any other exception. *)
Definition call_failure_entry (r : response) (attempt : nat) : api_event :=
  match r with
  | Http429 => ApiLog Error (MsgApiError 429)
  | HttpStatus code => ApiLog Error (MsgApiError code)
  | RequestTimeout => ApiLog Warning (MsgApiTimeout (attempt + 1))
  | Http200 _ | RequestError => ApiLog Error (MsgApiCallFailed (attempt + 1))
  end.

(** The loop from [attempt] on, with [remaining] attempts left. *)
Fixpoint call_openai_api_from (responses : nat -> response)
    (attempt remaining : nat) : py_value * list api_event :=
  match remaining with
  | O => (PyNone, [])
  | S remaining' =>
      match responses attempt with
      | Http200 (Some content) =>
          (* return data['choices'][0]['message']['content'] *)
          (content, [Post])
      | r =>
          let pause :=
            if (attempt <? MAX_RETRIES - 1)%nat
            then [AsyncSleep (RETRY_DELAY * (Z.of_nat attempt + 1))]
            else [] in
          let (res, t) := call_openai_api_from responses (S attempt) remaining' in
          (res, Post :: call_failure_entry r attempt :: pause ++ t)
      end
  end.

(** [api_key] is [os.environ.get('OPENAI_API_KEY')] being set and not
    empty. *)
Definition call_openai_api (api_key : bool) (responses : nat -> response)
  : py_value * list api_event :=
  if api_key then call_openai_api_from responses 0 MAX_RETRIES
  else (PyNone, [ApiLog Error MsgNoApiKey]).

(** ** [query_gpt5_with_retry] *)

(** The exceptions that leave [query_gpt5_with_retry]. *)
Inductive api_failure :=
| ApiKeyNotFound             (* RuntimeError of get_openai_api_key *)
| TimedOutAfterAllRetries    (* Request timed out after all retries *)
| AllRetryAttemptsFailed     (* All retry attempts failed. Last error: e *)
| UnexpectedRetryError.      (* Unexpected error in retry logic *)

Fixpoint query_gpt5_from (responses : nat -> response)
    (attempt remaining : nat)
  : (py_value + api_failure) * list api_event :=
  match remaining with
  | O => (inr UnexpectedRetryError, [])
  | S remaining' =>
      let last_attempt := (attempt =? MAX_RETRIES - 1)%nat in
      match responses attempt with
      | Http200 (Some content) =>
          (* content = ..['content']; logger.info(..); return content *)
          (inl content, [Post; ApiLog Info (MsgResponseReceived (attempt + 1))])
      | Http429 =>
          (* Rate limit - wait longer *)
          let wait_time := RETRY_DELAY * 2 ^ Z.of_nat attempt in
          let (res, t) := query_gpt5_from responses (S attempt) remaining' in
          (res, Post :: ApiLog Warning (MsgRateLimited wait_time (attempt + 1))
                :: AsyncSleep wait_time :: t)
      | RequestTimeout =>
          if last_attempt then
            (inr TimedOutAfterAllRetries,
             [Post; ApiLog Warning (MsgRequestTimeout (attempt + 1))])
          else
            let (res, t) := query_gpt5_from responses (S attempt) remaining' in
            (res, Post :: ApiLog Warning (MsgRequestTimeout (attempt + 1))
                  :: AsyncSleep RETRY_DELAY :: t)
      | Http200 None | HttpStatus _ | RequestError =>
          if last_attempt then
            (inr AllRetryAttemptsFailed,
             [Post; ApiLog Error (MsgAttemptFailed (attempt + 1))])
          else
            let (res, t) := query_gpt5_from responses (S attempt) remaining' in
            (res, Post :: ApiLog Error (MsgAttemptFailed (attempt + 1))
                  :: AsyncSleep RETRY_DELAY :: t)
      end
  end.

(** [api_key] is [get_openai_api_key()] finding a key. *)
Definition query_gpt5_with_retry (api_key : bool) (responses : nat -> response)
  : (py_value + api_failure) * list api_event :=
  if api_key then query_gpt5_from responses 0 MAX_RETRIES
  else (inr ApiKeyNotFound, []).

Definition is_post (e : api_event) : bool :=
  match e with Post => true | _ => false end.

(** The requests a call sends. *)
Definition posts (t : list api_event) : nat := List.length (filter is_post t).

(** The waits of a call, in order. *)
Definition waits (t : list api_event) : list Z :=
  flat_map (fun e => match e with AsyncSleep d => [d] | _ => [] end) t.

(** The value an attempt ends the loop with, when it does: the content
    of a reply of status 200, be it a string, [None] or anything
    else. *)
Definition answers (r : response) : option py_value :=
  match r with
  | Http200 (Some content) => Some content
  | _ => None
  end.

(** ** [get_openai_api_key]

    A string is the list of its code points; [isspace] tells the
    characters that [str.strip] removes. *)

Inductive key_var := OPENAI_API_KEY | CHATGPT_COOKIE.

Section ApiKey.
Variable isspace : N -> bool.

(** [s.lstrip()]. *)
Fixpoint lstrip (s : list N) : list N :=
  match s with
  | [] => []
  | c :: rest => if isspace c then lstrip rest else s
  end.

(** [s.rstrip()]. *)
Fixpoint rstrip (s : list N) : list N :=
  match s with
  | [] => []
  | c :: rest =>
      match rstrip rest with
      | [] => if isspace c then [] else [c]
      | rest' => c :: rest'
      end
  end.

(** [s.strip()]. *)
Definition strip (s : list N) : list N := rstrip (lstrip s).

(** [s.startswith(prefix)]. *)
Fixpoint startswith (prefix s : list N) : bool :=
  match prefix, s with
  | [], _ => true
  | _ :: _, [] => false
  | a :: prefix', c :: s' => N.eqb a c && startswith prefix' s'
  end.

(** The text [sk-]. *)
Definition sk_prefix : list N := [115; 107; 45]%N.

(** The body of the loop for one variable: the key to return, if the
    variable holds one. *)
Definition key_of (value : option (list N)) : option (list N) :=
  match value with
  | Some key =>
      match key, strip key with
      | _ :: _, _ :: _ =>
          if startswith sk_prefix key then Some (strip key) else None
      | _, _ => None
      end
  | None => None
  end.

(** [None] is the [RuntimeError] that no key was found. *)
Definition get_openai_api_key (environ : key_var -> option (list N))
  : option (list N) :=
  match key_of (environ OPENAI_API_KEY) with
  | Some key => Some key
  | None => key_of (environ CHATGPT_COOKIE)
  end.
End ApiKey.

(** ** Observations used in the further properties *)

(** The exception a launch ends in, if it fails. *)
Definition launch_error (o : launch_outcome) : option exn :=
  match o with
  | LaunchOk _ => None
  | ScriptNotFound => Some FileNotFoundError
  | PopenFails e => Some e
  end.

(** The first of the attempts [from], .., [from + n - 1] that is
    answered, with its answer. *)
Fixpoint first_answer (responses : nat -> response) (from n : nat)
  : option (nat * py_value) :=
  match n with
  | O => None
  | S n' =>
      match answers (responses from) with
      | Some content => Some (from, content)
      | None => first_answer responses (S from) n'
      end
  end.

(** The wait of [query_gpt5_with_retry] after an unanswered attempt that
    is not the last: doubled with each attempt when rate limited,
    [RETRY_DELAY] otherwise. *)
Definition retry_wait (r : response) (attempt : nat) : Z :=
  match r with
  | Http429 => RETRY_DELAY * 2 ^ Z.of_nat attempt
  | _ => RETRY_DELAY
  end.

(** * Properties *)

(** ** Running the monad *)

Ltac unfold_methods :=
  unfold monitor_iteration, monitor_iteration_during, monitor_body,
    monitor_body_during, service_loop_iteration, _periodic_health_check,
    _handle_server_restart, handle_server_restart_during,
    psutil_Process, memory_info_rss, cpu_percent,
    SvcStop, _start_server, time_sleep, other_thread,
    process_terminate, process_wait, process_kill, thread_join,
    thread_is_alive, _log_info, _log_error, _log_warning,
    except_Exception, except_TimeoutExpired, except_NoSuchProcess_or.

Ltac unfold_monad :=
  cbv beta iota delta [bind ret raise get modify emit try_except try_finally
                       result_of state_of trace_of fst snd].

(** Case analysis on the next test the run is stuck on. *)
Ltac case_step :=
  match goal with
  | |- context [match ?x with _ => _ end] =>
      lazymatch x with
      | context [match _ with _ => _ end] => fail
      | _ => destruct x eqn:?
      end
  end.

Ltac run :=
  unfold_methods; try change (30 <? 0) with false; unfold_monad; cbn [app].
Ltac run_cases := run; repeat (case_step; unfold_monad; cbn [app]).

(** Projections of an updated service object. *)
Ltac fields :=
  cbn [is_alive server_process monitor_thread restart_count last_restart
       hWaitStop set_is_alive set_server_process set_monitor_thread
       set_restart_count set_last_restart set_hWaitStop].

(** Boolean comparisons on [Z] in the hypotheses, as propositions. *)
Ltac Zbool :=
  repeat match goal with
         | H : (_ <? _) = true |- _ => apply Z.ltb_lt in H
         | H : (_ <? _) = false |- _ => apply Z.ltb_ge in H
         | H : (_ >? _) = true |- _ => apply Z.gtb_lt in H
         | H : (_ >? _) = false |- _ => rewrite Z.gtb_ltb in H
         end.

(** ** Time *)

Lemma us_per_second_pos : 0 < us_per_second.
Proof. reflexivity. Qed.

Lemma us_per_day_pos : 0 < us_per_day.
Proof. reflexivity. Qed.

(** Below one day, [.seconds] is the elapsed time in whole seconds. *)
Lemma seconds_below_one_day (a b : datetime) :
  0 <= a - b < us_per_day ->
  seconds (datetime_sub a b) = (a - b) / us_per_second.
Proof.
  intros H. unfold datetime_sub; cbn [seconds].
  rewrite Z.mod_small by exact H. reflexivity.
Qed.

(** From a non-negative elapsed time, [.seconds] never exceeds the
    elapsed whole seconds. *)
Lemma seconds_le_elapsed (a b : datetime) :
  0 <= a - b ->
  seconds (datetime_sub a b) <= (a - b) / us_per_second.
Proof.
  intros H. unfold datetime_sub; cbn [seconds].
  apply Z.div_le_mono; [exact us_per_second_pos|].
  apply Z.mod_le; [exact H | exact us_per_day_pos].
Qed.

Lemma within_restart_window_elapsed (s : service) (t current_time window : Z) :
  last_restart s = Some t ->
  0 <= current_time - t ->
  current_time - t < window * us_per_second ->
  within_restart_window s current_time window = true.
Proof.
  intros Hl H0 Hw. unfold within_restart_window. rewrite Hl.
  apply Z.ltb_lt.
  apply Z.le_lt_trans with ((current_time - t) / us_per_second).
  - apply seconds_le_elapsed; exact H0.
  - apply Z.div_lt_upper_bound; [exact us_per_second_pos|].
    rewrite Z.mul_comm. exact Hw.
Qed.

(** ** The restart accounting *)

Lemma next_restart_count_pos cfg s t :
  0 <= restart_count s -> 1 <= next_restart_count cfg s t.
Proof.
  intros H. unfold next_restart_count.
  destruct (within_restart_window s t (restart_window cfg)); lia.
Qed.

(** [SvcStop] touches neither the restart accounting nor the worker
    handle, clears [is_alive], signals the stop event and launches
    nothing. *)
Lemma SvcStop_effect cfg w caller s :
  let r := SvcStop cfg w caller s in
  state_of r = set_is_alive false (set_hWaitStop true s) /\
  launches (trace_of r) = 0%nat /\
  backoff_sleeps (trace_of r) = [] /\
  exists rest,
    trace_of r = Log Info MsgStopRequested
                 :: ReportServiceStatus SERVICE_STOP_PENDING
                 :: SetEvent :: rest.
Proof.
  cbv zeta. run_cases; cbn; repeat split; eauto.
Qed.

(** The count a restart decision stores is [next_restart_count], and it
    is what the object holds when the method is left. *)
Lemma handle_server_restart_count cfg w s :
  restart_count (state_of (_handle_server_restart cfg w s))
  = next_restart_count cfg s (now w).
Proof.
  unfold next_restart_count. run_cases; reflexivity.
Qed.

(** The stored count never drops below 1 once a restart was decided, so
    the exponent of the backoff is never negative. *)
Lemma restart_count_pos cfg w s :
  0 <= restart_count s ->
  1 <= restart_count (state_of (_handle_server_restart cfg w s)).
Proof.
  intros H. rewrite handle_server_restart_count.
  apply next_restart_count_pos; exact H.
Qed.

(** The restart count is never negative: it is 0 when the object is
    built, and no method of the monitor thread or of the stop handler
    makes it so. *)
Section CountInvariant.
Variable cfg : config.

Lemma init_service_count : 0 <= restart_count init_service.
Proof. cbn. lia. Qed.

Lemma SvcStop_count w caller s :
  restart_count (state_of (SvcStop cfg w caller s)) = restart_count s.
Proof.
  destruct (SvcStop_effect cfg w caller s) as (Hs & _).
  rewrite Hs. reflexivity.
Qed.

Lemma monitor_iteration_count w s :
  0 <= restart_count s ->
  0 <= restart_count (state_of (monitor_iteration cfg w s)).
Proof.
  intros H. run_cases; fields; lia.
Qed.

Lemma monitor_loop_count ws :
  forall s,
    0 <= restart_count s ->
    0 <= restart_count (state_of (monitor_loop cfg ws s)).
Proof.
  induction ws as [|w ws IH]; intros s H; cbn [monitor_loop];
    unfold bind at 1, get at 1.
  - destruct (is_alive s); exact H.
  - destruct (is_alive s); [|exact H].
    unfold bind at 1.
    pose proof (monitor_iteration_count w s H) as H1.
    destruct (monitor_iteration cfg w s) as [[[ctl|e] s1] t1];
      unfold state_of in H1; cbn [fst snd] in H1.
    + destruct ctl.
      * specialize (IH s1 H1).
        destruct (monitor_loop cfg ws s1) as [[res s2] t2].
        exact IH.
      * exact H1.
    + exact H1.
Qed.
End CountInvariant.

(** A denied restart: the budget is logged as exhausted and the rest of
    the method is [SvcStop], run by the monitor thread. *)
Lemma handle_server_restart_deny cfg w s :
  next_restart_count cfg s (now w) > max_restarts cfg ->
  let s1 := set_restart_count (next_restart_count cfg s (now w)) s in
  let r := SvcStop cfg w MonitorThread s1 in
  _handle_server_restart cfg w s
  = (result_of r, state_of r,
     Log Error (MsgMaxRestartsExceeded (max_restarts cfg) (restart_window cfg))
     :: trace_of r).
Proof.
  intros Hn. cbv zeta. revert Hn. unfold next_restart_count.
  unfold _handle_server_restart, handle_server_restart_during.
  unfold_monad.
  destruct (within_restart_window s (now w) (restart_window cfg));
    cbn [restart_count set_restart_count]; intros Hn.
  all: match goal with
       | |- context [?n >? ?m] => destruct (Z.gtb_spec n m) as [Hgt|Hle]; [|lia]
       end.
  all: unfold _log_error; unfold_monad; cbn [app].
  all: match goal with
       | |- context [SvcStop ?c ?w ?t ?st] =>
           destruct (SvcStop c w t st) as [[res st'] tr]
       end; reflexivity.
Qed.

(** An allowed restart announces its delay first and, the delay being a
    length [time.sleep] accepts, sleeps it next. *)
Lemma handle_server_restart_allow cfg w s :
  next_restart_count cfg s (now w) <= max_restarts cfg ->
  let n := next_restart_count cfg s (now w) in
  let d := backoff_delay (restart_delay cfg) n in
  let r := _handle_server_restart cfg w s in
  (exists rest, trace_of r = Log Info (MsgRestarting d n) :: rest) /\
  (0 <= d ->
   exists rest, trace_of r = Log Info (MsgRestarting d n) :: Sleep d :: rest).
Proof.
  cbv zeta. unfold next_restart_count, backoff_delay.
  run_cases; intros Hn; Zbool; unfold backoff_delay in *;
    cbn [restart_count set_restart_count] in *; try lia.
  all: split; [|intros Hd; try lia]; eauto.
Qed.

(** C1. At every restart decision, with [n] the restart count of the
    decision, [b] the configured base delay and [m] the configured
    maximum: when [n <= m] the delay that is announced and slept is
    [min (b * 2^(n-1)) 300]; when [n > m] the restart is denied: the
    method logs the exhausted budget, requests the stop of the service,
    sleeps no delay and launches no worker. *)
Theorem restart_decision_backoff_or_deny (cfg : config) (w : world) (s : service) :
  0 <= restart_count s ->
  let r := _handle_server_restart cfg w s in
  let n := restart_count (state_of r) in
  let b := restart_delay cfg in
  let m := max_restarts cfg in
  let d := Z.min (b * 2 ^ (n - 1)) 300 in
  1 <= n /\
  (n <= m ->
   (exists rest, trace_of r = Log Info (MsgRestarting d n) :: rest) /\
   (0 <= d ->
    exists rest, trace_of r = Log Info (MsgRestarting d n) :: Sleep d :: rest)) /\
  (n > m ->
   is_alive (state_of r) = false /\
   launches (trace_of r) = 0%nat /\
   backoff_sleeps (trace_of r) = [] /\
   exists rest,
     trace_of r = Log Error (MsgMaxRestartsExceeded m (restart_window cfg))
                  :: Log Info MsgStopRequested
                  :: ReportServiceStatus SERVICE_STOP_PENDING
                  :: SetEvent :: rest).
Proof.
  intros Hc. cbv zeta.
  split; [apply restart_count_pos; exact Hc|].
  rewrite handle_server_restart_count.
  split; intros Hn.
  - exact (handle_server_restart_allow cfg w s Hn).
  - rewrite (handle_server_restart_deny cfg w s Hn).
    destruct (SvcStop_effect cfg w MonitorThread
                (set_restart_count (next_restart_count cfg s (now w)) s))
      as (Hst & Hl & Hb & rest & Htr).
    destruct (SvcStop cfg w MonitorThread _) as [[res st] tr].
    unfold state_of, trace_of, result_of, launches in *. cbn [fst snd] in *.
    subst st. repeat split.
    + cbn [filter is_popen]. exact Hl.
    + cbn [backoff_sleeps]. exact Hb.
    + exists rest. rewrite Htr. reflexivity.
Qed.

Lemma restart_decision_backoff_or_deny_witness :
  0 <= restart_count (running_service 100) /\
  exists rest,
    trace_of (_handle_server_restart default_config (crash_world 0 200)
                (running_service 100))
    = Log Info (MsgRestarting 30 1) :: Sleep 30 :: rest.
Proof.
  assert (H0 : 0 <= restart_count (running_service 100)) by (cbn; lia).
  split; [exact H0|].
  destruct (restart_decision_backoff_or_deny default_config (crash_world 0 200)
              (running_service 100) H0) as (_ & Hallow & _).
  apply Hallow; vm_compute; intro; discriminate.
Defined.

(** ** The restart window *)

(** C2, as the code has it. At every restart decision: with no
    successful restart recorded the count is set to 1; with one recorded
    [t] and an elapsed time [now - t] from zero up to one day, the count
    is incremented when the elapsed whole seconds are below
    [restart_window] and set to 1 when they have reached it. *)
Theorem restart_count_update (cfg : config) (w : world) (s : service) :
  let n' := restart_count (state_of (_handle_server_restart cfg w s)) in
  (last_restart s = None -> n' = 1) /\
  (forall t,
     last_restart s = Some t ->
     0 <= now w - t < us_per_day ->
     ((now w - t) / us_per_second < restart_window cfg ->
      n' = restart_count s + 1) /\
     (restart_window cfg <= (now w - t) / us_per_second -> n' = 1)).
Proof.
  cbv zeta. rewrite handle_server_restart_count.
  unfold next_restart_count, within_restart_window.
  split.
  - intros ->. reflexivity.
  - intros t -> Hday. rewrite (seconds_below_one_day _ _ Hday).
    split; intros H.
    + apply Z.ltb_lt in H. rewrite H. reflexivity.
    + apply Z.ltb_ge in H. rewrite H. reflexivity.
Qed.

Lemma restart_count_update_witness :
  restart_count
    (state_of (_handle_server_restart default_config
                 (crash_world (90 * us_per_second) 201)
                 (restarted_service 200 1 0))) = 2 /\
  restart_count
    (state_of (_handle_server_restart default_config
                 (crash_world (3600 * us_per_second) 201)
                 (restarted_service 200 1 0))) = 1.
Proof.
  split.
  - apply (proj2 (restart_count_update default_config
                    (crash_world (90 * us_per_second) 201)
                    (restarted_service 200 1 0)) 0 eq_refl);
      vm_compute; repeat split; intro; discriminate.
  - apply (proj2 (restart_count_update default_config
                    (crash_world (3600 * us_per_second) 201)
                    (restarted_service 200 1 0)) 0 eq_refl);
      vm_compute; repeat split; intro; discriminate.
Defined.

(** C2, as stated, fails at the boundary: 3600 seconds after the last
    restart the elapsed time does not exceed a window of 3600 seconds,
    and the count 2 is reset to 1 instead of becoming 3. *)
Lemma restart_window_boundary_resets :
  let s := restarted_service 200 2 0 in
  let w := crash_world (3600 * us_per_second) 201 in
  last_restart s = Some 0 /\
  now w - 0 = restart_window default_config * us_per_second /\
  restart_count s = 2 /\
  restart_count (state_of (_handle_server_restart default_config w s)) = 1.
Proof. cbv zeta. repeat split. Qed.

(** The window is measured from the last successful restart, so it moves
    with every restart: crashes 3000 and 4000 seconds after a first one
    are both counted, although the second is more than 3600 seconds
    after the first crash. *)
Example restart_window_slides :
  let s1 := restarted_service 200 1 0 in
  let s2 := state_of (_handle_server_restart default_config
                        (crash_world (3000 * us_per_second) 201) s1) in
  let s3 := state_of (_handle_server_restart default_config
                        (crash_world (4000 * us_per_second) 202) s2) in
  restart_count s2 = 2 /\ restart_count s3 = 3.
Proof. cbv zeta. split; reflexivity. Qed.

(** [.seconds] drops whole days: one day and ten seconds after the last
    restart the test of the window still succeeds and the count goes up. *)
Example seconds_drops_whole_days :
  let s := restarted_service 200 2 0 in
  let w := crash_world (us_per_day + 10 * us_per_second) 201 in
  seconds (datetime_sub (now w) 0) = 10 /\
  restart_count (state_of (_handle_server_restart default_config w s)) = 3.
Proof. cbv zeta. split; reflexivity. Qed.

(** ** The first restart and the last-restart timestamp *)

(** [last_restart] is written in one place: after [_start_server]
    returned, with the time read at the start of the method. A run that
    changes it has launched exactly one worker, the one the object now
    holds. *)
Lemma last_restart_written_after_launch cfg w s :
  let r := _handle_server_restart cfg w s in
  last_restart (state_of r) = last_restart s \/
  (last_restart (state_of r) = Some (now w) /\
   result_of r = Ok tt /\
   launches (trace_of r) = 1%nat /\
   exists q, launch w = LaunchOk q /\
             server_process (state_of r) = Some q /\
             occurs_after is_popen
               (fun e => match e with Log Info (MsgRestarted _) => true | _ => false end)
               (trace_of r) = true).
Proof.
  cbv zeta. run_cases; cbn; eauto 10.
Qed.

(** An allowed restart with an acceptable delay and a successful launch
    does record the time of the decision. *)
Lemma last_restart_recorded cfg w s q :
  next_restart_count cfg s (now w) <= max_restarts cfg ->
  0 <= backoff_delay (restart_delay cfg) (next_restart_count cfg s (now w)) ->
  launch w = LaunchOk q ->
  last_restart (state_of (_handle_server_restart cfg w s)) = Some (now w).
Proof.
  unfold next_restart_count.
  run_cases; intros Hn Hd Hq; Zbool;
    cbn [restart_count set_restart_count] in *; try lia; try congruence;
    reflexivity.
Qed.

(** C10, as the code has it. A crash handled while no successful
    restart is recorded sets the count to 1 whatever it was; when at
    least one restart is allowed the announced delay is
    [min base_delay 300], which is the base delay when that is at most
    300; the timestamp is written only by a run that launched a worker,
    with the time read when the crash was handled, and stays absent
    otherwise. *)
Theorem first_restart_decision (cfg : config) (w : world) (s : service) :
  last_restart s = None ->
  let r := _handle_server_restart cfg w s in
  let d := Z.min (restart_delay cfg) 300 in
  restart_count (state_of r) = 1 /\
  (1 <= max_restarts cfg ->
   (exists rest, trace_of r = Log Info (MsgRestarting d 1) :: rest) /\
   (0 <= d -> exists rest,
        trace_of r = Log Info (MsgRestarting d 1) :: Sleep d :: rest) /\
   (restart_delay cfg <= 300 -> d = restart_delay cfg)) /\
  (last_restart (state_of r) = None \/
   (last_restart (state_of r) = Some (now w) /\
    launches (trace_of r) = 1%nat /\
    exists q, launch w = LaunchOk q /\ server_process (state_of r) = Some q)) /\
  (forall q, 1 <= max_restarts cfg -> 0 <= d -> launch w = LaunchOk q ->
             last_restart (state_of r) = Some (now w)).
Proof.
  intros Hnone. cbv zeta.
  assert (Hn : next_restart_count cfg s (now w) = 1).
  { unfold next_restart_count, within_restart_window. rewrite Hnone. reflexivity. }
  assert (Hd : backoff_delay (restart_delay cfg) 1 = Z.min (restart_delay cfg) 300).
  { unfold backoff_delay. f_equal. change (2 ^ (1 - 1)) with 1. lia. }
  split; [rewrite handle_server_restart_count; exact Hn|].
  split; [|split].
  - intros Hm.
    assert (Hle : next_restart_count cfg s (now w) <= max_restarts cfg) by lia.
    pose proof (handle_server_restart_allow cfg w s Hle) as Ha.
    cbv zeta in Ha. rewrite Hn, Hd in Ha.
    destruct Ha as [Ha1 Ha2]. repeat split; [exact Ha1 | exact Ha2 | lia].
  - destruct (last_restart_written_after_launch cfg w s)
      as [Hsame | (Hnow & _ & Hl & q & Hq & Hp & _)].
    + left. rewrite Hsame. exact Hnone.
    + right. eauto.
  - intros q Hm Hd0 Hq.
    apply (last_restart_recorded cfg w s q); rewrite ?Hn, ?Hd; trivial; lia.
Qed.

Lemma first_restart_decision_witness :
  last_restart (running_service 100) = None /\
  restart_count
    (state_of (_handle_server_restart default_config (crash_world 7 200)
                 (running_service 100))) = 1.
Proof.
  split; [reflexivity|].
  exact (proj1 (first_restart_decision default_config (crash_world 7 200)
                  (running_service 100) eq_refl)).
Defined.

(** C10, as stated, fails above the cap: with a base delay of 600
    seconds and no restart recorded, the delay of the first restart is
    300 seconds, not the base delay. *)
Lemma first_restart_delay_is_capped :
  let cfg := mk_config true 600 5 3600 60 true 15 2048 in
  let s := running_service 100 in
  let r := _handle_server_restart cfg (crash_world 7 200) s in
  last_restart s = None /\
  restart_delay cfg = 600 /\
  restart_count (state_of r) = 1 /\
  backoff_sleeps (trace_of r) = [300].
Proof. cbv zeta. repeat split. Qed.

(** ** A run of rapid crashes *)

(** What one pass of the monitor loop does when it finds the worker
    exited and the restart is allowed and succeeds. *)
Lemma monitor_iteration_restart cfg w s p c q :
  auto_restart cfg = true ->
  server_process s = Some p ->
  poll w = Some c ->
  launch w = LaunchOk q ->
  next_restart_count cfg s (now w) <= max_restarts cfg ->
  0 <= backoff_delay (restart_delay cfg) (next_restart_count cfg s (now w)) ->
  let n := next_restart_count cfg s (now w) in
  let d := backoff_delay (restart_delay cfg) n in
  exists tail,
    monitor_iteration cfg w s
    = (Ok Continue,
       set_last_restart (Some (now w))
         (set_server_process (Some q) (set_restart_count n s)),
       Log Error (MsgProcessTerminated c)
       :: Log Info (MsgRestarting d n) :: Sleep d :: Kill p
       :: Log Info MsgStartingServer :: Popen q
       :: Log Info (MsgServerStarted q) :: Log Info (MsgRestarted n) :: tail)
    /\ (forall X, backoff_sleeps (tail ++ X) = backoff_sleeps X)
    /\ launches tail = 0%nat.
Proof.
  intros Ha Hp Hc Hq. cbv zeta. unfold next_restart_count.
  run. rewrite Hp, Hc, Ha. unfold_monad.
  destruct (within_restart_window s (now w) (restart_window cfg));
    cbn [restart_count set_restart_count set_server_process set_last_restart
         server_process app]; intros Hn Hd.
  all: match goal with
       | |- context [?n >? ?m] => destruct (Z.gtb_spec n m) as [Hgt|Hle]; [lia|]
       end.
  all: match goal with
       | |- context [?x <? 0] => destruct (Z.ltb_spec x 0) as [Hneg|Hpos]; [lia|]
       end.
  all: fields; rewrite Hp, Hq; unfold_monad; cbn [app].
  all: repeat (case_step; unfold_monad; cbn [app]).
  all: fields; eexists; split; [reflexivity|split; [intros X|]; reflexivity].
Qed.

Lemma backoff_delay_nonneg b n : 0 <= b -> 0 <= backoff_delay b n.
Proof.
  intros Hb. unfold backoff_delay.
  apply Z.min_glb; [|lia].
  apply Z.mul_nonneg_nonneg; [exact Hb|].
  apply Z.pow_nonneg. lia.
Qed.

(** In the window after a counted restart the next count is one more. *)
Lemma next_restart_count_counted cfg s w :
  match last_restart s with
  | Some t => 0 <= now w - t < restart_window cfg * us_per_second
  | None => True
  end ->
  next_restart_count cfg s (now w) = counted s + 1.
Proof.
  unfold next_restart_count, counted.
  destruct (last_restart s) as [t|] eqn:Hl; intros H.
  - rewrite (within_restart_window_elapsed s t _ _ Hl); [reflexivity|lia|lia].
  - unfold within_restart_window. rewrite Hl. reflexivity.
Qed.

Lemma launches_app t1 t2 : launches (t1 ++ t2) = (launches t1 + launches t2)%nat.
Proof. unfold launches. rewrite filter_app, length_app. reflexivity. Qed.

(** The monitor loop over rapid crashes within the restart budget: the
    [i]-th of them sleeps [backoff_delay base (k + i)], where [k]
    restarts were counted before, and each relaunches the worker; the
    loop then goes on with the remaining observations. *)
Lemma monitor_loop_rapid_crashes cfg :
  auto_restart cfg = true ->
  0 <= restart_delay cfg ->
  forall ws rest s,
    is_alive s = true ->
    (exists p, server_process s = Some p) ->
    rapid_crashes (restart_window cfg) (last_restart s) ws ->
    counted s + Z.of_nat (length ws) <= max_restarts cfg ->
    exists s' tr,
      monitor_loop cfg (ws ++ rest) s
      = (result_of (monitor_loop cfg rest s'),
         state_of (monitor_loop cfg rest s'),
         tr ++ trace_of (monitor_loop cfg rest s')) /\
      is_alive s' = true /\
      (exists p', server_process s' = Some p') /\
      counted s' = counted s + Z.of_nat (length ws) /\
      last_restart s' = last_time (last_restart s) ws /\
      (forall X, backoff_sleeps (tr ++ X)
                 = map (fun i => backoff_delay (restart_delay cfg)
                                   (counted s + Z.of_nat i))
                       (seq 1 (length ws))
                   ++ backoff_sleeps X) /\
      launches tr = length ws.
Proof.
  intros Ha Hb. induction ws as [|w ws IH]; intros rest s Halive Hproc Hrapid Hbudget.
  - exists s, []. cbn [app length seq map last_time fold_left].
    destruct (monitor_loop cfg rest s) as [[res st] tr].
    repeat split; auto; lia.
  - destruct Hproc as [p Hp].
    destruct Hrapid as ((c & Hc) & (q & Hq) & Hwin & Hrapid).
    pose proof (next_restart_count_counted cfg s w Hwin) as Hn.
    cbn [length] in Hbudget.
    assert (Hle : next_restart_count cfg s (now w) <= max_restarts cfg) by lia.
    assert (Hd : 0 <= backoff_delay (restart_delay cfg)
                        (next_restart_count cfg s (now w)))
      by (apply backoff_delay_nonneg; exact Hb).
    destruct (monitor_iteration_restart cfg w s p c q Ha Hp Hc Hq Hle Hd)
      as (tail & Hit & Htail_b & Htail_l).
    cbv zeta in Hit.
    remember (set_last_restart (Some (now w))
                (set_server_process (Some q)
                   (set_restart_count (next_restart_count cfg s (now w)) s)))
      as s1 eqn:Hs1.
    assert (Hc1 : counted s1 = counted s + 1)
      by (subst s1; unfold counted; fields; exact Hn).
    assert (Hl1 : last_restart s1 = Some (now w)) by (subst s1; reflexivity).
    destruct (IH rest s1)
      as (s' & tr & Heq & Hal' & Hp' & Hcnt' & Hlast' & Hbs & Hls).
    + subst s1. fields. exact Halive.
    + exists q. subst s1. reflexivity.
    + rewrite Hl1. exact Hrapid.
    + rewrite Hc1. lia.
    + exists s'.
      eexists (_ :: _ :: _ :: _ :: _ :: _ :: _ :: _ :: tail ++ tr).
      split; [|repeat split].
      * cbn [app monitor_loop]. unfold bind at 1, get at 1. rewrite Halive.
        unfold bind at 1. rewrite Hit. rewrite Heq.
        unfold result_of, state_of, trace_of. cbn [fst snd app].
        rewrite <- app_assoc. reflexivity.
      * exact Hal'.
      * exact Hp'.
      * rewrite Hcnt', Hc1. cbn [length]. lia.
      * rewrite Hlast', Hl1. reflexivity.
      * intros X. cbn [app backoff_sleeps]. rewrite <- app_assoc.
        rewrite Htail_b, Hbs. cbn [length seq map app].
        rewrite Hn. f_equal. f_equal.
        rewrite <- (seq_shift (length ws) 1), map_map.
        apply map_ext. intros i. rewrite Hc1. f_equal. lia.
      * cbn [length]. rewrite <- Hls.
        change (_ :: _ :: _ :: _ :: _ :: _ :: _ :: _ :: tail ++ tr)
          with ([Log Error (MsgProcessTerminated c);
                 Log Info (MsgRestarting
                             (backoff_delay (restart_delay cfg)
                                (next_restart_count cfg s (now w)))
                             (next_restart_count cfg s (now w)));
                 Sleep (backoff_delay (restart_delay cfg)
                          (next_restart_count cfg s (now w)));
                 Kill p; Log Info MsgStartingServer; Popen q;
                 Log Info (MsgServerStarted q);
                 Log Info (MsgRestarted (next_restart_count cfg s (now w)))]
                ++ tail ++ tr).
        rewrite !launches_app, Htail_l. reflexivity.
Qed.

(** What one pass of the monitor loop does when it finds the worker
    exited and the restart budget used up. *)
Lemma monitor_iteration_deny cfg w s p c :
  auto_restart cfg = true ->
  server_process s = Some p ->
  poll w = Some c ->
  next_restart_count cfg s (now w) > max_restarts cfg ->
  exists ctl s' rest,
    monitor_iteration cfg w s
    = (Ok ctl, s',
       Log Error (MsgProcessTerminated c)
       :: Log Error (MsgMaxRestartsExceeded (max_restarts cfg) (restart_window cfg))
       :: rest) /\
    is_alive s' = false /\
    restart_count s' = next_restart_count cfg s (now w) /\
    backoff_sleeps rest = [] /\
    launches rest = 0%nat.
Proof.
  intros Ha Hp Hc. unfold next_restart_count.
  run. rewrite Hp, Hc, Ha. unfold_monad.
  destruct (within_restart_window s (now w) (restart_window cfg));
    fields; intros Hn.
  all: match goal with
       | |- context [?n >? ?m] => destruct (Z.gtb_spec n m) as [Hgt|Hle]; [|lia]
       end.
  all: unfold_monad; fields; rewrite ?Hp; unfold_monad; cbn [app].
  all: repeat (case_step; unfold_monad; cbn [app]).
  all: fields; do 3 eexists; split; [reflexivity|repeat split].
Qed.

(** C3. With a base delay of 30 seconds and at most 5 restarts, six
    crashes in a row that the monitor finds within one restart window,
    the first five relaunches succeeding, make the monitor sleep the
    delays 30, 60, 120, 240 and 300 and launch five workers; at the
    sixth crash the restart is denied: the exhausted budget is logged,
    the service is told to stop and the loop is left. *)
Theorem six_rapid_crashes (cfg : config) (w1 w2 w3 w4 w5 w6 : world)
    (s : service) :
  restart_delay cfg = 30 ->
  max_restarts cfg = 5 ->
  auto_restart cfg = true ->
  is_alive s = true ->
  (exists p, server_process s = Some p) ->
  last_restart s = None ->
  Forall (fun w => exists c, poll w = Some c) [w1; w2; w3; w4; w5; w6] ->
  Forall (fun w => exists q, launch w = LaunchOk q) [w1; w2; w3; w4; w5] ->
  now w1 <= now w2 <= now w3 ->
  now w3 <= now w4 <= now w5 ->
  now w5 <= now w6 ->
  now w6 - now w1 < restart_window cfg * us_per_second ->
  let r := monitor_loop cfg [w1; w2; w3; w4; w5; w6] s in
  backoff_sleeps (trace_of r) = [30; 60; 120; 240; 300] /\
  launches (trace_of r) = 5%nat /\
  In (Log Error (MsgMaxRestartsExceeded 5 (restart_window cfg))) (trace_of r) /\
  restart_count (state_of r) = 6 /\
  is_alive (state_of r) = false /\
  result_of r = Ok true.
Proof.
  intros Hbase Hmax Ha Halive Hproc Hnone Hpoll Hlaunch H123 H345 H56 Hwin.
  cbv zeta.
  repeat match goal with
         | H : Forall _ (_ :: _) |- _ => inversion H; subst; clear H
         | H : Forall _ [] |- _ => clear H
         end.
  assert (Hc0 : counted s = 0) by (unfold counted; rewrite Hnone; reflexivity).
  destruct (monitor_loop_rapid_crashes cfg Ha ltac:(lia)
              [w1; w2; w3; w4; w5] [w6] s Halive Hproc)
    as (s5 & tr & Heq & Hal5 & (p5 & Hp5) & Hcnt5 & Hlast5 & Hbs & Hls).
  { rewrite Hnone. cbn [rapid_crashes]. repeat split; auto; lia. }
  { rewrite Hc0, Hmax. cbn [length]. lia. }
  cbn [last_time fold_left] in Hlast5.
  assert (Hn6 : next_restart_count cfg s5 (now w6) = 6).
  { rewrite next_restart_count_counted.
    - rewrite Hcnt5, Hc0. reflexivity.
    - rewrite Hlast5. lia. }
  match goal with H : exists c, poll w6 = Some c |- _ => destruct H as [c6 Hc6] end.
  destruct (monitor_iteration_deny cfg w6 s5 p5 c6 Ha Hp5 Hc6 ltac:(lia))
    as (ctl & s6 & rest & Hit & Hal6 & Hrc6 & Hb6 & Hl6).
  change ([w1; w2; w3; w4; w5; w6]) with ([w1; w2; w3; w4; w5] ++ [w6]).
  rewrite Heq.
  assert (Hlast : monitor_loop cfg [w6] s5
                  = (Ok true, s6,
                     Log Error (MsgProcessTerminated c6)
                     :: Log Error (MsgMaxRestartsExceeded (max_restarts cfg)
                                     (restart_window cfg))
                     :: rest)).
  { cbn [monitor_loop]. unfold bind at 1, get at 1. rewrite Hal5.
    unfold bind at 1. rewrite Hit.
    destruct ctl; cbn [monitor_loop]; unfold_monad; rewrite ?Hal6;
      rewrite ?app_nil_r; reflexivity. }
  rewrite Hlast. unfold result_of, state_of, trace_of. cbn [fst snd].
  repeat split.
  - rewrite Hbs. cbn [backoff_sleeps]. rewrite Hb6, Hc0, Hbase.
    reflexivity.
  - rewrite launches_app, Hls.
    change (launches (_ :: _ :: rest)) with (launches rest).
    rewrite Hl6. reflexivity.
  - apply in_or_app. right. right. left. rewrite Hmax. reflexivity.
  - rewrite Hrc6. exact Hn6.
  - exact Hal6.
Qed.

Lemma six_rapid_crashes_witness :
  let r := monitor_loop default_config
             [crash_world 0 201;
              crash_world (90 * us_per_second) 202;
              crash_world (210 * us_per_second) 203;
              crash_world (390 * us_per_second) 204;
              crash_world (690 * us_per_second) 205;
              crash_world (1050 * us_per_second) 206]
             (running_service 200) in
  backoff_sleeps (trace_of r) = [30; 60; 120; 240; 300] /\
  launches (trace_of r) = 5%nat /\
  In (Log Error (MsgMaxRestartsExceeded 5 (restart_window default_config)))
     (trace_of r) /\
  restart_count (state_of r) = 6 /\
  is_alive (state_of r) = false /\
  result_of r = Ok true.
Proof.
  apply (six_rapid_crashes default_config); try reflexivity.
  - exists 200. reflexivity.
  - repeat constructor; exists 1; reflexivity.
  - repeat constructor; eexists; reflexivity.
  - vm_compute; split; intro; discriminate.
  - vm_compute; split; intro; discriminate.
  - vm_compute; intro; discriminate.
Defined.

(** ** A stop request during a restart delay *)

(** [time.sleep(restart_delay)] looks at nothing: when another thread
    runs [SvcStop] during the delay of an allowed restart, the delay is
    slept in full and the worker is relaunched after the stop was
    signaled. *)
Lemma stop_does_not_cancel_restart cfg w w' s q :
  next_restart_count cfg s (now w) <= max_restarts cfg ->
  0 <= backoff_delay (restart_delay cfg) (next_restart_count cfg s (now w)) ->
  launch w = LaunchOk q ->
  let r := handle_server_restart_during (SvcStop cfg w' ControlThread) cfg w s in
  let d := backoff_delay (restart_delay cfg) (next_restart_count cfg s (now w)) in
  In (Sleep d) (trace_of r) /\
  occurs_after is_set_event is_popen (trace_of r) = true /\
  is_alive (state_of r) = false /\
  server_process (state_of r) = Some q.
Proof.
  unfold next_restart_count. cbv zeta.
  run_cases; intros Hn Hd Hq; Zbool;
    cbn [restart_count set_restart_count] in *; fields;
    try lia; try congruence.
  all: cbn [In occurs_after existsb is_set_event is_popen andb orb];
    intuition congruence.
Qed.

(** C5 at a concrete run. The worker 100 has crashed and the monitor
    sleeps the 30 seconds before the first restart; the control thread
    runs [SvcStop] during that delay and finishes it; the monitor then
    wakes up and launches worker 200, which is left running by a service
    whose [is_alive] is false. *)
Theorem stop_loses_race_against_pending_restart :
  let w := crash_world 0 200 in
  handle_server_restart_during (SvcStop default_config w ControlThread)
    default_config w (running_service 100)
  = (Ok tt,
     {| is_alive := false;
        server_process := Some 200;
        monitor_thread := true;
        restart_count := 1;
        last_restart := Some 0;
        hWaitStop := true |},
     [Log Info (MsgRestarting 30 1); Sleep 30;
      Log Info MsgStopRequested; ReportServiceStatus SERVICE_STOP_PENDING;
      SetEvent; Log Info MsgAttemptGraceful; Terminate 100; Wait 100 15;
      Log Info MsgShutDownGracefully; Join 5; Log Info MsgServiceStopped;
      Kill 100; Log Info MsgStartingServer; Popen 200;
      Log Info (MsgServerStarted 200); Log Info (MsgRestarted 1)]).
Proof. reflexivity. Qed.



(** ** Worker exit with auto-restart disabled *)

(** C6. When a pass of the monitor finds the worker exited and
    auto-restart is off, it logs the exit and goes straight to
    [SvcStop]: the stop is reported as pending and signaled and
    [is_alive] is cleared; the restart count and the last-restart time
    are left as they were, no restart delay is slept, nothing is
    launched, no entry of the restart policy is logged, and neither the
    stored restart accounting nor the restart settings have any
    influence on what is done. *)
Theorem worker_exit_without_auto_restart (cfg : config) (w : world)
    (s : service) (p c : Z) :
  auto_restart cfg = false ->
  server_process s = Some p ->
  poll w = Some c ->
  let r := monitor_iteration cfg w s in
  (exists rest,
     trace_of r = Log Error (MsgProcessTerminated c)
                  :: Log Info MsgAutoRestartDisabled
                  :: Log Info MsgStopRequested
                  :: ReportServiceStatus SERVICE_STOP_PENDING
                  :: SetEvent :: rest) /\
  is_alive (state_of r) = false /\
  restart_count (state_of r) = restart_count s /\
  last_restart (state_of r) = last_restart s /\
  backoff_sleeps (trace_of r) = [] /\
  launches (trace_of r) = 0%nat /\
  filter is_restart_policy_entry (trace_of r) = [] /\
  (forall n t delay maxr window,
     trace_of (monitor_iteration (with_restart_policy delay maxr window cfg) w
                 (set_restart_count n (set_last_restart t s)))
     = trace_of r).
Proof.
  intros Ha Hp Hc. cbv zeta.
  unfold with_restart_policy.
  run. fields. cbn [auto_restart shutdown_timeout health_check_interval].
  rewrite Hp, Hc, Ha. unfold_monad. fields. rewrite Hp. unfold_monad.
  cbn [app].
  repeat (case_step; unfold_monad; cbn [app]).
  all: fields; repeat split; eauto.
Qed.

Lemma worker_exit_without_auto_restart_witness :
  let cfg := mk_config false 30 5 3600 60 true 15 2048 in
  let r := monitor_iteration cfg (crash_world 0 200) (running_service 100) in
  auto_restart cfg = false /\
  is_alive (state_of r) = false /\
  restart_count (state_of r) = 0 /\
  launches (trace_of r) = 0%nat.
Proof.
  cbv zeta.
  pose proof (worker_exit_without_auto_restart
                (mk_config false 30 5 3600 60 true 15 2048)
                (crash_world 0 200) (running_service 100) 100 1
                eq_refl eq_refl eq_refl) as H.
  cbv zeta in H.
  destruct H as (_ & Halive & Hcount & _ & _ & Hl & _).
  exact (conj eq_refl (conj Halive (conj Hcount Hl))).
Defined.

(** ** Shutdown escalation *)

(** C7. During a stop, when the worker was sent the terminate signal
    and has not exited within [shutdown_timeout], the escalation is
    logged once, as a warning, and the worker is killed; [is_alive] is
    false from then on. A stop requested from outside the monitor
    thread then completes: apart from a join of the monitor thread
    bounded by five seconds nothing waits any more, "Service stopped" is
    logged last and the method returns. *)
Theorem shutdown_timeout_escalates (cfg : config) (w : world)
    (caller : thread) (s : service) (p : Z) :
  server_process s = Some p ->
  terminate_raises w = None ->
  wait_result w = WaitTimeout ->
  let r := SvcStop cfg w caller s in
  trace_of r
  = [Log Info MsgStopRequested;
     ReportServiceStatus SERVICE_STOP_PENDING;
     SetEvent;
     Log Info MsgAttemptGraceful;
     Terminate p;
     Wait p (shutdown_timeout cfg);
     Log Warning MsgForcingTermination;
     Kill p]
    ++ after_forced_kill caller w s /\
  severities_of is_forcing_termination (trace_of r) = [Warning] /\
  is_alive (state_of r) = false /\
  (caller <> MonitorThread ->
   result_of r = Ok tt /\
   last (trace_of r) SetEvent = Log Info MsgServiceStopped).
Proof.
  intros Hp Ht Hw. cbv zeta. unfold after_forced_kill.
  run. fields. rewrite Hp. unfold_monad. rewrite Ht. unfold_monad.
  rewrite Hw. unfold_monad. cbn [app].
  destruct caller.
  all: destruct (kill_raises w); unfold_monad; cbn [app];
    destruct (monitor_thread s); try destruct (monitor_alive w);
    cbn [andb]; unfold_monad; cbn [app]; repeat split; congruence.
Qed.

Lemma shutdown_timeout_escalates_witness :
  let w := mk_world 0 None None WaitTimeout None true (LaunchOk 200) (Sampled 0 0) in
  let r := SvcStop default_config w ControlThread (running_service 100) in
  wait_result w = WaitTimeout /\
  trace_of r
  = [Log Info MsgStopRequested;
     ReportServiceStatus SERVICE_STOP_PENDING;
     SetEvent;
     Log Info MsgAttemptGraceful;
     Terminate 100;
     Wait 100 15;
     Log Warning MsgForcingTermination;
     Kill 100;
     Join 5;
     Log Info MsgServiceStopped].
Proof.
  cbv zeta.
  split; [reflexivity|].
  exact (proj1 (shutdown_timeout_escalates default_config
                  (mk_world 0 None None WaitTimeout None true (LaunchOk 200)
                     (Sampled 0 0))
                  ControlThread (running_service 100) 100
                  eq_refl eq_refl eq_refl)).
Defined.

(** Run by the monitor thread itself, the same escalation happens, but
    the join of the thread with itself raises and "Service stopped" is
    never logged. *)
Lemma monitor_thread_escalation_raises cfg w s p :
  server_process s = Some p ->
  monitor_thread s = true ->
  terminate_raises w = None ->
  wait_result w = WaitTimeout ->
  let r := SvcStop cfg w MonitorThread s in
  result_of r = Raise RuntimeError /\
  severities_of is_forcing_termination (trace_of r) = [Warning] /\
  In (Kill p) (trace_of r) /\
  ~ In (Log Info MsgServiceStopped) (trace_of r).
Proof.
  intros Hp Hm Ht Hw. cbv zeta.
  run. fields. rewrite Hp, Hm. unfold_monad. rewrite Ht. unfold_monad.
  rewrite Hw. unfold_monad. cbn [app andb].
  destruct (kill_raises w); unfold_monad; cbn [app]; repeat split;
    cbn; intuition congruence.
Qed.

(** ** Stopping twice *)

(** [SvcStop] on a service that is already stopped keeps it stopped and
    changes nothing but the stop event, which it signals again. *)
Lemma SvcStop_state_when_stopped cfg w caller s :
  is_alive s = false ->
  state_of (SvcStop cfg w caller s) = set_hWaitStop true s.
Proof.
  intros H. destruct (SvcStop_effect cfg w caller s) as (Hs & _).
  rewrite Hs. destruct s. cbn in *. subst. reflexivity.
Qed.

(** C8, as the code has it. [SvcStop] on a service that is already
    stopped keeps [is_alive] false and leaves the worker handle, the
    restart count and the last-restart time as they are, but it is not
    a no-op: it logs "Service stop requested", reports the stop as
    pending and signals the stop event again; on a worker handle it
    still holds it repeats the graceful shutdown (the entry, the
    terminate signal and, when that does not raise, the wait); and, run
    from outside the monitor thread, it returns after logging "Service
    stopped", with at least these two entries logged. *)
Theorem stop_when_stopped (cfg : config) (w : world) (caller : thread)
    (s : service) :
  is_alive s = false ->
  let r := SvcStop cfg w caller s in
  state_of r = set_hWaitStop true s /\
  (exists rest,
     trace_of r = Log Info MsgStopRequested
                  :: ReportServiceStatus SERVICE_STOP_PENDING
                  :: SetEvent :: rest) /\
  (forall p,
     server_process s = Some p ->
     (exists rest,
        trace_of r = Log Info MsgStopRequested
                     :: ReportServiceStatus SERVICE_STOP_PENDING
                     :: SetEvent
                     :: Log Info MsgAttemptGraceful
                     :: Terminate p :: rest) /\
     (terminate_raises w = None ->
      exists rest,
        trace_of r = Log Info MsgStopRequested
                     :: ReportServiceStatus SERVICE_STOP_PENDING
                     :: SetEvent
                     :: Log Info MsgAttemptGraceful
                     :: Terminate p
                     :: Wait p (shutdown_timeout cfg) :: rest) /\
     (terminate_raises w = None ->
      wait_result w = WaitExited ->
      caller <> MonitorThread ->
      trace_of r
      = [Log Info MsgStopRequested;
         ReportServiceStatus SERVICE_STOP_PENDING;
         SetEvent;
         Log Info MsgAttemptGraceful;
         Terminate p;
         Wait p (shutdown_timeout cfg);
         Log Info MsgShutDownGracefully]
        ++ (if monitor_thread s && monitor_alive w then [Join 5] else [])
        ++ [Log Info MsgServiceStopped])) /\
  (server_process s = None ->
   caller <> MonitorThread ->
   trace_of r
   = [Log Info MsgStopRequested;
      ReportServiceStatus SERVICE_STOP_PENDING;
      SetEvent]
     ++ (if monitor_thread s && monitor_alive w then [Join 5] else [])
     ++ [Log Info MsgServiceStopped]) /\
  (caller <> MonitorThread ->
   result_of r = Ok tt /\
   last (trace_of r) SetEvent = Log Info MsgServiceStopped /\
   (2 <= length (log_entries (trace_of r)))%nat).
Proof.
  intros H. cbv zeta.
  split; [apply SvcStop_state_when_stopped; exact H|].
  split; [apply SvcStop_effect|].
  split; [|split].
  - intros p Hp. run. fields. rewrite Hp. unfold_monad. cbn [app].
    split; [|split].
    + repeat (case_step; unfold_monad; cbn [app]); eauto.
    + intros Ht. rewrite Ht. unfold_monad. cbn [app].
      repeat (case_step; unfold_monad; cbn [app]); eauto.
    + intros Ht Hw Hc. rewrite Ht. unfold_monad. rewrite Hw. unfold_monad.
      cbn [app]. destruct caller; [| |congruence].
      all: destruct (monitor_thread s); try destruct (monitor_alive w);
        cbn [andb]; unfold_monad; reflexivity.
  - intros Hp Hc. run. fields. rewrite Hp. unfold_monad. cbn [app].
    destruct caller; [| |congruence].
    all: destruct (monitor_thread s); try destruct (monitor_alive w);
      cbn [andb]; unfold_monad; reflexivity.
  - intros Hc. destruct caller; [| |congruence].
    all: run_cases; cbn; repeat split; lia.
Qed.

Lemma stop_when_stopped_witness :
  let s := set_is_alive false (running_service 100) in
  let r := SvcStop default_config (crash_world 0 200) ControlThread s in
  is_alive s = false /\
  server_process s = Some 100 /\
  state_of r = set_hWaitStop true s /\
  trace_of r
  = [Log Info MsgStopRequested;
     ReportServiceStatus SERVICE_STOP_PENDING;
     SetEvent;
     Log Info MsgAttemptGraceful;
     Terminate 100;
     Wait 100 15;
     Log Info MsgShutDownGracefully;
     Join 5;
     Log Info MsgServiceStopped].
Proof.
  cbv zeta.
  assert (Hc : ControlThread <> MonitorThread) by discriminate.
  destruct (stop_when_stopped default_config (crash_world 0 200)
              ControlThread (set_is_alive false (running_service 100))
              eq_refl) as (Hst & _ & Hworker & _).
  destruct (Hworker 100 eq_refl) as (_ & _ & Htrace).
  exact (conj eq_refl (conj eq_refl
           (conj Hst (Htrace eq_refl eq_refl Hc)))).
Defined.

(** C8, as stated, fails. A first stop ends the service and the main
    loop takes the stop event; a second stop then logs four more
    entries, terminates and waits for the old worker handle again and
    sets the stop event anew. *)
Lemma second_stop_is_not_a_no_op :
  let w := crash_world 0 200 in
  let s1 := state_of (SvcStop default_config w ControlThread (running_service 100)) in
  let s2 := state_of (service_loop_iteration default_config w s1) in
  let r := SvcStop default_config w ControlThread s2 in
  is_alive s2 = false /\
  trace_of r
  = [Log Info MsgStopRequested;
     ReportServiceStatus SERVICE_STOP_PENDING;
     SetEvent;
     Log Info MsgAttemptGraceful;
     Terminate 100;
     Wait 100 15;
     Log Info MsgShutDownGracefully;
     Join 5;
     Log Info MsgServiceStopped] /\
  length (log_entries (trace_of r)) = 4%nat /\
  hWaitStop s2 = false /\
  hWaitStop (state_of r) = true.
Proof. cbv zeta. repeat split. Qed.

(** ** Errors while monitoring *)

(** No exception leaves [_periodic_health_check], and the check leaves
    the service object alone. *)
Lemma periodic_health_check_total cfg w s :
  result_of (_periodic_health_check cfg w s) = Ok tt /\
  state_of (_periodic_health_check cfg w s) = s.
Proof. run_cases; split; reflexivity. Qed.

(** No exception leaves a pass of the monitor loop. *)
Lemma monitor_iteration_total cfg w s :
  exists ctl, result_of (monitor_iteration cfg w s) = Ok ctl.
Proof. run_cases; eauto. Qed.

(** An exception raised in the [try] block of a pass of the monitor loop
    is logged as an error, thirty seconds are slept and the loop goes
    on. *)
Lemma monitor_iteration_catches cfg w s e :
  result_of (monitor_body cfg w s) = Raise e ->
  monitor_iteration cfg w s
  = (Ok Continue, state_of (monitor_body cfg w s),
     trace_of (monitor_body cfg w s)
     ++ [Log Error (MsgMonitoringError e); Sleep 30]).
Proof.
  unfold monitor_iteration, monitor_iteration_during, monitor_body.
  unfold try_except at 1.
  destruct (monitor_body_during (ret tt) cfg w s) as [[res st] tr].
  unfold result_of, state_of, trace_of. cbn [fst snd].
  intros ->. reflexivity.
Qed.

(** C9. An exception raised while the health check samples the metrics
    of the worker is caught and logged (as an error when the process no
    longer exists, as a warning otherwise); the check returns normally
    and leaves the service object alone, and the main loop goes on from
    the same state with its next thirty-second wait. Likewise no
    exception leaves a pass of the monitor loop: whatever is raised in
    it is logged as an error, thirty seconds are slept and the loop goes
    on. *)
Theorem sampling_errors_are_contained (cfg : config) (w : world)
    (s : service) (p : Z) (e : exn) :
  server_process s = Some p ->
  poll w = None ->
  sampling_error (sample w) = Some e ->
  let r := _periodic_health_check cfg w s in
  result_of r = Ok tt /\
  state_of r = s /\
  last (trace_of r) SetEvent = sampling_error_entry e /\
  (is_alive s = true -> hWaitStop s = false ->
   forall ws,
     service_loop cfg (w :: ws) s
     = (result_of (service_loop cfg ws s),
        state_of (service_loop cfg ws s),
        WaitForSingleObject 30000 :: trace_of r
        ++ trace_of (service_loop cfg ws s))) /\
  (forall w' s', exists ctl, result_of (monitor_iteration cfg w' s') = Ok ctl) /\
  (forall w' s' e',
     result_of (monitor_body cfg w' s') = Raise e' ->
     monitor_iteration cfg w' s'
     = (Ok Continue, state_of (monitor_body cfg w' s'),
        trace_of (monitor_body cfg w' s')
        ++ [Log Error (MsgMonitoringError e'); Sleep 30])).
Proof.
  intros Hp Hpoll He. cbv zeta.
  destruct (periodic_health_check_total cfg w s) as [Hres Hst].
  split; [exact Hres|]. split; [exact Hst|].
  split; [|split; [|split]].
  - revert He. unfold sampling_error, sampling_error_entry.
    run. rewrite Hp, Hpoll. unfold_monad.
    destruct (sample w); intros He; inversion He; subst; unfold_monad;
      cbn [app].
    all: repeat (case_step; unfold_monad; cbn [app]); reflexivity.
  - intros Halive Hstop ws.
    cbn [service_loop]. unfold bind at 1, get at 1. rewrite Halive.
    unfold bind at 1. unfold service_loop_iteration.
    unfold bind at 1, emit at 1. unfold bind at 1, get at 1.
    rewrite Hstop. unfold bind at 1.
    destruct (_periodic_health_check cfg w s) as [[res st] tr].
    unfold result_of, state_of, trace_of in *. cbn [fst snd] in *. subst.
    unfold ret at 1. cbn [app].
    destruct (service_loop cfg ws s) as [[res' st'] tr'].
    cbn [fst snd]. rewrite app_nil_r. reflexivity.
  - intros w' s'. apply monitor_iteration_total.
  - intros w' s' e'. apply monitor_iteration_catches.
Qed.

Lemma sampling_errors_are_contained_witness :
  let w := mk_world 0 None None WaitExited None true (LaunchOk 200)
             (ProcessRaises NoSuchProcess) in
  let r := _periodic_health_check default_config w (running_service 100) in
  sampling_error (sample w) = Some NoSuchProcess /\
  result_of r = Ok tt /\
  state_of r = running_service 100 /\
  last (trace_of r) SetEvent = Log Error MsgNoLongerExists.
Proof.
  cbv zeta.
  pose proof (sampling_errors_are_contained default_config
                (mk_world 0 None None WaitExited None true (LaunchOk 200)
                   (ProcessRaises NoSuchProcess))
                (running_service 100) 100 NoSuchProcess
                eq_refl eq_refl eq_refl) as H.
  cbv zeta in H. destruct H as (H1 & H2 & H3 & _).
  exact (conj eq_refl (conj H1 (conj H2 H3))).
Defined.

(** * Further properties of the service *)

(** ** [SvcStop] *)

(** X1. A stop run from outside the monitor thread always completes:
    whatever the worker and the process operations do (terminate or
    kill raising, the wait timing out), [SvcStop] returns normally,
    "Service stopped" is its last entry, [is_alive] is false and the
    stop event is set. *)
Theorem SvcStop_completes (cfg : config) (w : world) (caller : thread)
    (s : service) :
  caller <> MonitorThread ->
  let r := SvcStop cfg w caller s in
  result_of r = Ok tt /\
  last (trace_of r) SetEvent = Log Info MsgServiceStopped /\
  is_alive (state_of r) = false /\
  hWaitStop (state_of r) = true.
Proof.
  intros Hc. cbv zeta. destruct caller; [| |congruence].
  all: run_cases; repeat split.
Qed.

Lemma SvcStop_completes_witness :
  let w := mk_world 0 None (Some OSError) WaitExited None true (LaunchOk 200)
             (Sampled 0 0) in
  let r := SvcStop default_config w ControlThread (running_service 100) in
  terminate_raises w = Some OSError /\
  result_of r = Ok tt /\
  last (trace_of r) SetEvent = Log Info MsgServiceStopped.
Proof.
  cbv zeta.
  assert (Hc : ControlThread <> MonitorThread) by discriminate.
  pose proof (SvcStop_completes default_config
                (mk_world 0 None (Some OSError) WaitExited None true
                   (LaunchOk 200) (Sampled 0 0))
                ControlThread (running_service 100) Hc) as H.
  cbv zeta in H. destruct H as (H1 & H2 & _).
  exact (conj eq_refl (conj H1 H2)).
Defined.

(** X2. A stop run by the monitor thread itself (after a denied restart
    or a worker exit with auto-restart off) never completes: the worker
    is dealt with, then the thread's join of itself raises
    [RuntimeError], so "Service stopped" is not logged; [is_alive] is
    false all the same. *)
Theorem SvcStop_in_monitor_thread_raises (cfg : config) (w : world)
    (s : service) :
  monitor_thread s = true ->
  let r := SvcStop cfg w MonitorThread s in
  result_of r = Raise RuntimeError /\
  filter (fun e => match e with
                   | Log _ MsgServiceStopped | Join _ => true
                   | _ => false
                   end) (trace_of r) = [] /\
  is_alive (state_of r) = false.
Proof.
  intros Hm. cbv zeta. run. fields. rewrite Hm. cbn [andb]. unfold_monad.
  repeat (case_step; unfold_monad; cbn [app]); repeat split.
Qed.

Lemma SvcStop_in_monitor_thread_raises_witness :
  monitor_thread (running_service 100) = true /\
  result_of (SvcStop default_config (crash_world 0 200) MonitorThread
               (running_service 100)) = Raise RuntimeError.
Proof.
  split; [reflexivity|].
  exact (proj1 (SvcStop_in_monitor_thread_raises default_config
                  (crash_world 0 200) (running_service 100) eq_refl)).
Defined.

(** X3. [SvcStop] kills the worker in one case only: the terminate
    signal was sent without error and the wait for the exit timed out.
    A worker that exits in time, or whose terminate raises, is never
    killed. *)
Theorem kill_only_after_timed_out_wait (cfg : config) (w : world)
    (caller : thread) (s : service) (p : Z) :
  server_process s = Some p ->
  let r := SvcStop cfg w caller s in
  existsb (fun e => match e with Kill _ => true | _ => false end) (trace_of r)
  = match terminate_raises w, wait_result w with
    | None, WaitTimeout => true
    | _, _ => false
    end.
Proof.
  intros Hp. cbv zeta. run. fields. rewrite Hp. unfold_monad.
  repeat (case_step; unfold_monad; cbn [app]); reflexivity.
Qed.

Lemma kill_only_after_timed_out_wait_witness :
  server_process (running_service 100) = Some 100 /\
  existsb (fun e => match e with Kill _ => true | _ => false end)
    (trace_of (SvcStop default_config (crash_world 0 200) ControlThread
                 (running_service 100))) = false.
Proof.
  split; [reflexivity|].
  exact (kill_only_after_timed_out_wait default_config (crash_world 0 200)
           ControlThread (running_service 100) 100 eq_refl).
Defined.

(** ** [_handle_server_restart] *)

(** X4. A relaunch that fails does not leave the restart handler: the
    old worker is killed, the failure is logged twice (by
    [_start_server] and by the handler) and the method returns
    normally, the object still holding the dead worker's handle and the
    last-restart time it had; nothing is launched. *)
Theorem failed_relaunch_is_contained (cfg : config) (w : world) (s : service)
    (p : Z) (e : exn) :
  server_process s = Some p ->
  next_restart_count cfg s (now w) <= max_restarts cfg ->
  0 <= backoff_delay (restart_delay cfg) (next_restart_count cfg s (now w)) ->
  launch_error (launch w) = Some e ->
  let r := _handle_server_restart cfg w s in
  result_of r = Ok tt /\
  server_process (state_of r) = Some p /\
  last_restart (state_of r) = last_restart s /\
  launches (trace_of r) = 0%nat /\
  In (Kill p) (trace_of r) /\
  exists front,
    trace_of r = front ++ [Log Error (MsgFailedToStart e);
                           Log Error (MsgFailedToRestart e)].
Proof.
  intros Hp. unfold next_restart_count, launch_error. cbv zeta.
  run_cases; intros Hn Hd He; Zbool;
    cbn [restart_count server_process set_restart_count] in *; fields;
    try lia; try congruence.
  all: inversion He; subst.
  all: repeat match goal with
              | H : server_process ?st = Some ?z,
                H' : server_process ?st = Some ?y |- _ =>
                  tryif constr_eq z y then fail
                  else (assert (z = y) by congruence; subst z)
              end.
  all: repeat split; try (cbn; tauto).
  all: match goal with
       | |- exists front, ?t = _ =>
           exists (removelast (removelast t)); reflexivity
       end.
Qed.

Lemma failed_relaunch_is_contained_witness :
  let w := mk_world 0 (Some 1) None WaitExited None true ScriptNotFound
             (Sampled 0 0) in
  let r := _handle_server_restart default_config w (running_service 100) in
  launch_error (launch w) = Some FileNotFoundError /\
  result_of r = Ok tt /\
  server_process (state_of r) = Some 100.
Proof.
  cbv zeta.
  pose proof (failed_relaunch_is_contained default_config
                (mk_world 0 (Some 1) None WaitExited None true ScriptNotFound
                   (Sampled 0 0))
                (running_service 100) 100 FileNotFoundError eq_refl) as H.
  cbv zeta in H.
  destruct H as (H1 & H2 & _); try reflexivity;
    try (vm_compute; intro; discriminate).
  exact (conj eq_refl (conj H1 H2)).
Defined.

(** X5. Whatever the configuration, the stored count and the clock, a
    call of the restart handler sleeps only lengths between 0 and 300
    seconds, launches at most one worker, and launches one only with a
    stored count within [max_restarts]. *)
Theorem restart_handler_bounds (cfg : config) (w : world) (s : service) :
  let r := _handle_server_restart cfg w s in
  Forall (fun e => match e with Sleep d => 0 <= d <= 300 | _ => True end)
         (trace_of r) /\
  (launches (trace_of r) <= 1)%nat /\
  (launches (trace_of r) = 1%nat ->
   restart_count (state_of r) <= max_restarts cfg).
Proof.
  cbv zeta. run_cases; Zbool; unfold backoff_delay in *;
    cbn [restart_count set_restart_count] in *; fields.
  all: repeat split;
    try (repeat constructor; lia);
    try (cbn; lia);
    try (cbn; intros; first [discriminate | lia]).
Qed.

(** X6. For a non-negative base delay the backoff never shrinks as the
    count grows, never exceeds 300 seconds, and is 300 seconds from the
    first count on at which [base * 2^(count-1)] reaches 300. *)
Theorem backoff_delay_monotone (b n n' : Z) :
  0 <= b ->
  1 <= n <= n' ->
  backoff_delay b n <= backoff_delay b n' <= 300 /\
  (300 <= b * 2 ^ (n - 1) -> backoff_delay b n' = 300).
Proof.
  intros Hb Hn. unfold backoff_delay.
  assert (Hpow : 2 ^ (n - 1) <= 2 ^ (n' - 1))
    by (apply Z.pow_le_mono_r; lia).
  assert (Hmul : b * 2 ^ (n - 1) <= b * 2 ^ (n' - 1))
    by (apply Z.mul_le_mono_nonneg_l; assumption).
  lia.
Qed.

Lemma backoff_delay_monotone_witness :
  backoff_delay 30 4 <= backoff_delay 30 5 <= 300 /\
  backoff_delay 30 20 = 300.
Proof.
  split.
  - apply (backoff_delay_monotone 30 4 5); lia.
  - apply (proj2 (backoff_delay_monotone 30 5 20 ltac:(lia) ltac:(lia))).
    vm_compute. intro; discriminate.
Defined.

(** ** The monitor loop *)

(** What holds of every pass holds of the loop: a property of the
    service object that the passes keep, and a kind of event that no
    pass performs while it holds. *)
Section MonitorLoopNever.
Variable cfg : config.
Variable P : service -> Prop.
Variable kind : event -> bool.
Hypothesis pass :
  forall w s, P s ->
    P (state_of (monitor_iteration cfg w s)) /\
    filter kind (trace_of (monitor_iteration cfg w s)) = [].

Lemma monitor_loop_never ws :
  forall s, P s ->
    P (state_of (monitor_loop cfg ws s)) /\
    filter kind (trace_of (monitor_loop cfg ws s)) = [].
Proof.
  induction ws as [|w ws IH]; intros s HP; cbn [monitor_loop]; unfold_monad.
  - destruct (is_alive s); split; first [exact HP | reflexivity].
  - destruct (is_alive s); [|split; first [exact HP | reflexivity]].
    destruct (pass w s HP) as [HP1 Hk1].
    unfold state_of, trace_of in HP1, Hk1.
    destruct (monitor_iteration cfg w s) as [[[ctl|e] s1] t1];
      cbn [fst snd] in HP1, Hk1; cbv beta iota.
    + destruct ctl.
      * destruct (IH s1 HP1) as [HP2 Hk2].
        unfold state_of, trace_of in HP2, Hk2.
        destruct (monitor_loop cfg ws s1) as [[res s2] t2].
        cbn [fst snd] in HP2, Hk2. cbv beta iota. cbn [app].
        split; [exact HP2|].
        rewrite filter_app, Hk1, Hk2. reflexivity.
      * cbn [app]. rewrite app_nil_r. split; assumption.
    + cbn [app]. split; assumption.
Qed.
End MonitorLoopNever.

Lemma launches_filter tr : launches tr = 0%nat <-> filter is_popen tr = [].
Proof.
  unfold launches. split.
  - intros H. destruct (filter is_popen tr); [reflexivity|discriminate].
  - intros ->. reflexivity.
Qed.

(** X7. With auto-restart off the monitor loop, however long it runs and
    whatever it observes, launches no worker, logs no entry of the
    restart policy and leaves the restart count and the last-restart
    time as they are. *)
Theorem monitor_without_auto_restart (cfg : config) (ws : list world)
    (s : service) :
  auto_restart cfg = false ->
  let r := monitor_loop cfg ws s in
  launches (trace_of r) = 0%nat /\
  filter is_restart_policy_entry (trace_of r) = [] /\
  restart_count (state_of r) = restart_count s /\
  last_restart (state_of r) = last_restart s.
Proof.
  intros Ha. cbv zeta.
  destruct (monitor_loop_never cfg
              (fun s' => restart_count s' = restart_count s /\
                         last_restart s' = last_restart s)
              (fun e => is_popen e || is_restart_policy_entry e)) with (ws := ws) (s := s)
    as [[Hc Hl] Hk].
  - intros w s' [Hc Hl]. rewrite <- Hc, <- Hl.
    run. rewrite Ha. unfold_monad.
    repeat (case_step; unfold_monad; cbn [app]); fields; repeat split.
  - split; reflexivity.
  - repeat split; trivial.
    + apply launches_filter.
      induction (trace_of (monitor_loop cfg ws s)) as [|e t IH];
        [reflexivity|].
      cbn [filter] in *. destruct (is_popen e); cbn [orb] in *;
        [discriminate|].
      destruct (is_restart_policy_entry e); [discriminate|]. auto.
    + induction (trace_of (monitor_loop cfg ws s)) as [|e t IH];
        [reflexivity|].
      cbn [filter] in *. destruct (is_restart_policy_entry e);
        rewrite ?orb_true_r in *; [discriminate|].
      rewrite orb_false_r in *. destruct (is_popen e); [discriminate|]. auto.
Qed.

Lemma monitor_without_auto_restart_witness :
  let cfg := mk_config false 30 5 3600 60 true 15 2048 in
  let r := monitor_loop cfg [crash_world 0 200; crash_world 1 201]
             (running_service 100) in
  auto_restart cfg = false /\
  launches (trace_of r) = 0%nat.
Proof.
  cbv zeta. split; [reflexivity|].
  exact (proj1 (monitor_without_auto_restart
                  (mk_config false 30 5 3600 60 true 15 2048)
                  [crash_world 0 200; crash_world 1 201]
                  (running_service 100) eq_refl)).
Defined.

Lemma backoff_delay_negative b n : b < 0 -> 1 <= n -> backoff_delay b n < 0.
Proof.
  intros Hb Hn. unfold backoff_delay.
  assert (Hpow : 0 < 2 ^ (n - 1)) by (apply Z.pow_pos_nonneg; lia).
  apply Z.min_lt_iff. left. nia.
Qed.

(** X8. With a negative [restart_delay] the monitor loop never launches
    a worker, however long it runs: every allowed restart ends at
    [time.sleep], which refuses the negative length, before a new
    worker is started. *)
Theorem monitor_with_negative_delay (cfg : config) (ws : list world)
    (s : service) :
  restart_delay cfg < 0 ->
  0 <= restart_count s ->
  launches (trace_of (monitor_loop cfg ws s)) = 0%nat.
Proof.
  intros Hb Hc.
  destruct (monitor_loop_never cfg (fun s' => 0 <= restart_count s') is_popen)
    with (ws := ws) (s := s) as [_ Hk].
  - intros w s' Hc'. split; [apply monitor_iteration_count; exact Hc'|].
    pose proof (backoff_delay_negative (restart_delay cfg)
                  (restart_count s' + 1) Hb ltac:(lia)) as Hneg1.
    pose proof (backoff_delay_negative (restart_delay cfg) 1 Hb ltac:(lia))
      as Hneg2.
    run_cases; Zbool; cbn [restart_count set_restart_count] in *;
      try lia; reflexivity.
  - exact Hc.
  - apply launches_filter; exact Hk.
Qed.

Lemma monitor_with_negative_delay_witness :
  let cfg := mk_config true (-5) 5 3600 60 true 15 2048 in
  restart_delay cfg < 0 /\
  launches (trace_of (monitor_loop cfg [crash_world 0 200; crash_world 1 201]
                        (running_service 100))) = 0%nat.
Proof.
  cbv zeta. split; [reflexivity|].
  apply (monitor_with_negative_delay (mk_config true (-5) 5 3600 60 true 15 2048));
    [reflexivity | vm_compute; intro; discriminate].
Defined.

Lemma backoff_delay_first b : backoff_delay b 1 = Z.min b 300.
Proof. unfold backoff_delay. change (2 ^ (1 - 1)) with 1. f_equal. lia. Qed.

(** One pass over an exited worker whose relaunch fails, while no
    restart is recorded. *)
Lemma monitor_iteration_failed_first cfg w s p c e :
  auto_restart cfg = true ->
  1 <= max_restarts cfg ->
  0 <= restart_delay cfg ->
  server_process s = Some p ->
  last_restart s = None ->
  poll w = Some c ->
  launch_error (launch w) = Some e ->
  exists tr,
    monitor_iteration cfg w s = (Ok Continue, set_restart_count 1 s, tr) /\
    launches tr = 0%nat /\
    (forall X, backoff_sleeps (tr ++ X)
               = Z.min (restart_delay cfg) 300 :: backoff_sleeps X).
Proof.
  intros Ha Hm Hb Hp Hl Hc He.
  pose proof (backoff_delay_nonneg (restart_delay cfg) 1 Hb) as Hd.
  rewrite <- backoff_delay_first.
  run. rewrite Hp, Hc, Ha. unfold within_restart_window. rewrite Hl.
  unfold_monad. fields.
  destruct (Z.gtb_spec 1 (max_restarts cfg)) as [Hgt|Hle]; [lia|].
  unfold_monad.
  destruct (Z.ltb_spec (backoff_delay (restart_delay cfg) 1) 0) as [Hneg|Hpos];
    [lia|].
  unfold_monad. fields. rewrite Hp. unfold_monad. cbn [app].
  destruct (launch w); cbn [launch_error] in He; inversion He; subst.
  all: repeat (case_step; unfold_monad; cbn [app]).
  all: fields; eexists; split; [reflexivity|split; [|intros X]; reflexivity].
Qed.

(** X9. While no restart has ever succeeded, failed relaunches do not use
    up the restart budget. However many passes find the worker exited
    and fail to relaunch it, each pass stores the count 1 again and
    sleeps [min restart_delay 300]; the loop never stops the service,
    never records a restart and never launches anything. *)
Theorem failed_first_restart_never_exhausts (cfg : config) (ws : list world)
    (s : service) (p : Z) :
  auto_restart cfg = true ->
  1 <= max_restarts cfg ->
  0 <= restart_delay cfg ->
  is_alive s = true ->
  server_process s = Some p ->
  last_restart s = None ->
  Forall (fun w => (exists c, poll w = Some c) /\
                   (exists e, launch_error (launch w) = Some e)) ws ->
  let r := monitor_loop cfg ws s in
  result_of r = Ok false /\
  state_of r = match ws with [] => s | _ => set_restart_count 1 s end /\
  launches (trace_of r) = 0%nat /\
  backoff_sleeps (trace_of r)
  = repeat (Z.min (restart_delay cfg) 300) (length ws).
Proof.
  intros Ha Hm Hb Halive Hp Hl Hws. cbv zeta.
  assert (H : exists tr,
             monitor_loop cfg ws s
             = (Ok false, match ws with [] => s | _ => set_restart_count 1 s end, tr) /\
             launches tr = 0%nat /\
             forall X, backoff_sleeps (tr ++ X)
                       = repeat (Z.min (restart_delay cfg) 300) (length ws)
                         ++ backoff_sleeps X).
  { revert s Halive Hp Hl.
    induction Hws as [|w ws [[c Hc] [e He]] Hws IH]; intros s Halive Hp Hl.
    - exists []. cbn [monitor_loop]. unfold_monad. rewrite Halive.
      repeat split.
    - destruct (monitor_iteration_failed_first cfg w s p c e
                  Ha Hm Hb Hp Hl Hc He) as (t1 & Hit & Hl1 & Hb1).
      destruct (IH (set_restart_count 1 s) Halive Hp Hl)
        as (t2 & Hloop & Hl2 & Hb2).
      exists (t1 ++ t2). split; [|split].
      + cbn [monitor_loop]. unfold bind at 1, get at 1. rewrite Halive.
        unfold bind at 1. rewrite Hit, Hloop.
        destruct ws; reflexivity.
      + rewrite launches_app, Hl1, Hl2. reflexivity.
      + intros X. rewrite <- app_assoc, Hb1, Hb2. reflexivity. }
  destruct H as (tr & Heq & Hl0 & Hbs). rewrite Heq.
  unfold result_of, state_of, trace_of. cbn [fst snd].
  repeat split; trivial.
  rewrite <- (app_nil_r tr), Hbs. cbn [backoff_sleeps]. apply app_nil_r.
Qed.

Lemma failed_first_restart_never_exhausts_witness :
  let w := mk_world 0 (Some 1) None WaitExited None true ScriptNotFound
             (Sampled 0 0) in
  let r := monitor_loop default_config [w; w; w; w; w; w; w]
             (running_service 100) in
  result_of r = Ok false /\
  launches (trace_of r) = 0%nat /\
  backoff_sleeps (trace_of r) = [30; 30; 30; 30; 30; 30; 30].
Proof.
  cbv zeta.
  assert (Hm : 1 <= max_restarts default_config)
    by (vm_compute; intro; discriminate).
  assert (Hb : 0 <= restart_delay default_config)
    by (vm_compute; intro; discriminate).
  assert (Hws : Forall (fun w => (exists c, poll w = Some c) /\
                                 (exists e, launch_error (launch w) = Some e))
                  (repeat (mk_world 0 (Some 1) None WaitExited None true
                             ScriptNotFound (Sampled 0 0)) 7))
    by (repeat constructor; eexists; reflexivity).
  destruct (failed_first_restart_never_exhausts default_config _
              (running_service 100) 100 eq_refl Hm Hb eq_refl eq_refl eq_refl
              Hws) as (H1 & _ & H3 & H4).
  exact (conj H1 (conj H3 H4)).
Defined.

(** X10. A denied restart is the end of the monitor loop: the pass that
    finds the budget used up stops the service, and whatever the loop
    would observe afterwards is never looked at; nothing is launched. *)
Theorem denied_restart_ends_monitor (cfg : config) (w : world)
    (ws : list world) (s : service) (p c : Z) :
  auto_restart cfg = true ->
  is_alive s = true ->
  server_process s = Some p ->
  poll w = Some c ->
  next_restart_count cfg s (now w) > max_restarts cfg ->
  let r := monitor_loop cfg (w :: ws) s in
  result_of r = Ok true /\
  is_alive (state_of r) = false /\
  launches (trace_of r) = 0%nat /\
  trace_of r = trace_of (monitor_iteration cfg w s).
Proof.
  intros Ha Halive Hp Hc Hn. cbv zeta.
  destruct (monitor_iteration_deny cfg w s p c Ha Hp Hc Hn)
    as (ctl & s' & rest & Hit & Hal & _ & _ & Hl).
  assert (Heq : monitor_loop cfg (w :: ws) s
                = (Ok true, s', trace_of (monitor_iteration cfg w s))).
  { cbn [monitor_loop]. unfold bind at 1, get at 1. rewrite Halive.
    unfold bind at 1. rewrite Hit. unfold trace_of. cbn [snd].
    destruct ctl.
    - destruct ws; cbn [monitor_loop]; unfold_monad; rewrite Hal;
        cbn [app]; rewrite ?app_nil_r; reflexivity.
    - unfold_monad. cbn [app]. rewrite ?app_nil_r. reflexivity. }
  rewrite Heq. unfold result_of, state_of. cbn [fst snd].
  unfold trace_of at 1 2. cbn [fst snd].
  repeat split; trivial.
  rewrite Hit. unfold trace_of. cbn [snd].
  change (launches (_ :: _ :: rest)) with (launches rest). exact Hl.
Qed.

Lemma denied_restart_ends_monitor_witness :
  let s := restarted_service 205 5 0 in
  let w := crash_world (10 * us_per_second) 206 in
  let r := monitor_loop default_config [w; w; w] s in
  next_restart_count default_config s (now w) = 6 /\
  result_of r = Ok true /\
  launches (trace_of r) = 0%nat.
Proof.
  cbv zeta.
  pose proof (denied_restart_ends_monitor default_config
                (crash_world (10 * us_per_second) 206)
                [crash_world (10 * us_per_second) 206;
                 crash_world (10 * us_per_second) 206]
                (restarted_service 205 5 0) 205 1
                eq_refl eq_refl eq_refl eq_refl eq_refl) as H.
  cbv zeta in H. destruct H as (H1 & _ & H3 & _).
  exact (conj eq_refl (conj H1 H3)).
Defined.

(** ** [SvcDoRun] and the main loop *)

(** X11. The main loop alone never notices a worker that has exited.
    With no stop requested, every pass over an absent or exited worker
    only waits its thirty seconds: nothing is logged, nothing is
    restarted, the object is untouched and the loop goes on. Reporting
    and restarting an exited worker is left to the monitor thread, which
    runs only when monitoring is enabled. *)
Theorem main_loop_ignores_exited_worker (cfg : config) (ws : list world)
    (s : service) :
  is_alive s = true ->
  hWaitStop s = false ->
  Forall (fun w => server_process s = None \/ exists c, poll w = Some c) ws ->
  service_loop cfg ws s
  = (Ok false, s, repeat (WaitForSingleObject 30000) (length ws)).
Proof.
  intros Halive Hstop Hws.
  induction Hws as [|w ws Hw Hws IH]; cbn [service_loop]; unfold_monad;
    rewrite Halive.
  - reflexivity.
  - assert (Hit : service_loop_iteration cfg w s
                  = (Ok Continue, s, [WaitForSingleObject 30000])).
    { run. rewrite Hstop. unfold_monad.
      destruct Hw as [Hn | [c Hc]].
      - rewrite Hn. reflexivity.
      - rewrite Hc. destruct (server_process s); reflexivity. }
    rewrite Hit, IH. reflexivity.
Qed.

Lemma main_loop_ignores_exited_worker_witness :
  service_loop default_config [crash_world 0 200; crash_world 1 200]
    (running_service 100)
  = (Ok false, running_service 100,
     [WaitForSingleObject 30000; WaitForSingleObject 30000]).
Proof.
  apply (main_loop_ignores_exited_worker default_config
           [crash_world 0 200; crash_world 1 200] (running_service 100));
    try reflexivity.
  repeat (apply Forall_cons; [right; exists 1; reflexivity|]).
  apply Forall_nil.
Defined.

(** X12. When the first launch fails, [SvcDoRun] does not survive it:
    the failure is logged by [_start_server] and again as a service
    execution error, "Service execution completed" is logged last and
    the exception leaves the method, after the service was already
    reported as running. No monitor thread is started, the main loop is
    never entered and the object is as it was. *)
Theorem SvcDoRun_start_failure (cfg : config) (w0 : world) (ws : list world)
    (s : service) (e : exn) :
  launch_error (launch w0) = Some e ->
  let r := SvcDoRun cfg w0 ws s in
  result_of r = Raise e /\
  state_of r = s /\
  exists starting,
    trace_of r
    = [Log Info MsgServiceStarting; ReportServiceStatus SERVICE_RUNNING]
      ++ starting
      ++ [Log Error (MsgFailedToStart e);
          Log Error (MsgExecutionError e);
          Log Info MsgExecutionCompleted] /\
    (starting = [] \/ starting = [Log Info MsgStartingServer]).
Proof.
  intros He. cbv zeta. unfold SvcDoRun. run.
  destruct (launch w0); cbn [launch_error] in He; inversion He; subst;
    unfold_monad; cbn [app]; repeat split.
  - exists []. split; [reflexivity|left; reflexivity].
  - exists [Log Info MsgStartingServer]. split; [reflexivity|right; reflexivity].
Qed.

Lemma SvcDoRun_start_failure_witness :
  let w0 := mk_world 0 None None WaitExited None true (PopenFails OSError)
              (Sampled 0 0) in
  let r := SvcDoRun default_config w0 [] init_service in
  launch_error (launch w0) = Some OSError /\
  result_of r = Raise OSError /\
  state_of r = init_service.
Proof.
  cbv zeta.
  destruct (SvcDoRun_start_failure default_config
              (mk_world 0 None None WaitExited None true (PopenFails OSError)
                 (Sampled 0 0))
              [] init_service OSError eq_refl) as (H1 & H2 & _).
  exact (conj eq_refl (conj H1 H2)).
Defined.

(** ** [_get_service_status] *)

(** X13. After a stop, whoever ran it and whatever happened to the
    worker, the status reads "Stopped" with the restart count and
    last-restart time unchanged, and it still carries the entry of the
    worker process it had before: [SvcStop] never drops the handle. *)
Theorem status_after_stop (cfg : config) (w : world) (caller : thread)
    (probe : status_probe) (s : service) :
  let before := _get_service_status probe s in
  let after := _get_service_status probe (state_of (SvcStop cfg w caller s)) in
  status after = Stopped /\
  status_restart_count after = status_restart_count before /\
  status_last_restart after = status_last_restart before /\
  status_server_process after = status_server_process before.
Proof.
  cbv zeta. destruct (SvcStop_effect cfg w caller s) as (Hs & _).
  rewrite Hs. repeat split.
Qed.

(** ** The constructor *)

Lemma load_configuration_without_logger i config_paths conf :
  load_configuration_from false i config_paths conf
  = if existsb cf_exists config_paths
    then (InitRaise AttributeError, [])
    else (Built conf, []).
Proof.
  revert i conf. induction config_paths as [|f rest IH]; intros i conf;
    cbn [load_configuration_from existsb]; [reflexivity|].
  destruct (cf_exists f); cbn [orb].
  - destruct (cf_read f conf) as [conf' [e|]]; reflexivity.
  - apply IH.
Qed.

(** X14. [_load_configuration] runs before [_setup_logging], and it logs
    both when a configuration file was read and when reading failed. So
    as soon as one of the candidate configuration files exists,
    readable or not, the constructor ends in [AttributeError] (the
    object has no [logger] yet) with nothing logged; only when none
    exists is the object built, with the default configuration. *)
Theorem constructor_fails_on_config_file (config_paths : list config_file)
    (setup_raises makedirs_raises : option init_exn) :
  __init__ config_paths setup_raises makedirs_raises
  = if existsb cf_exists config_paths
    then (InitRaise AttributeError, [])
    else (match makedirs_raises with
          | Some e => InitRaise e
          | None => Built (init_service, default_config)
          end,
          _setup_logging setup_raises).
Proof.
  unfold __init__, _load_configuration.
  rewrite load_configuration_without_logger.
  destruct (existsb cf_exists config_paths); [reflexivity|].
  destruct makedirs_raises; reflexivity.
Qed.

(** ** The server script *)

(** X15. The script that [_start_server] launches, after the choice made
    by the constructor, is the first existing path among the three
    possible paths followed by the alternative paths; it always exists,
    and [FileNotFoundError] is raised exactly when none of all those
    paths exists. *)
Theorem server_script_resolution (path : Type) (path_exists : path -> bool)
    (p1 p2 p3 : path) (alternative_paths : list path) :
  let script :=
    resolve_server_script path_exists
      (init_server_script path_exists p1 p2 p3) alternative_paths in
  script = find path_exists ([p1; p2; p3] ++ alternative_paths) /\
  (forall p, script = Some p -> path_exists p = true) /\
  (script = None <->
   existsb path_exists ([p1; p2; p3] ++ alternative_paths) = false).
Proof.
  cbv zeta.
  assert (Heq : resolve_server_script path_exists
                  (init_server_script path_exists p1 p2 p3) alternative_paths
                = find path_exists ([p1; p2; p3] ++ alternative_paths)).
  { unfold resolve_server_script, init_server_script. cbn [find app].
    destruct (path_exists p1) eqn:H1; [rewrite H1; reflexivity|].
    destruct (path_exists p2) eqn:H2; [rewrite H2; reflexivity|].
    destruct (path_exists p3) eqn:H3; [rewrite H3; reflexivity|].
    rewrite H1. reflexivity. }
  rewrite Heq. split; [reflexivity|]. split.
  - intros p Hp. apply find_some in Hp. apply Hp.
  - split.
    + intros Hnone.
      destruct (existsb path_exists ([p1; p2; p3] ++ alternative_paths)) eqn:Hex;
        [|reflexivity].
      apply existsb_exists in Hex. destruct Hex as (x & Hin & Hx).
      pose proof (find_none _ _ Hnone x Hin) as Hc. congruence.
    + intros Hex.
      destruct (find path_exists ([p1; p2; p3] ++ alternative_paths)) eqn:Hf;
        [|reflexivity].
      apply find_some in Hf. destruct Hf as [Hin Hx].
      assert (existsb path_exists ([p1; p2; p3] ++ alternative_paths) = true)
        by (apply existsb_exists; eauto).
      congruence.
Qed.

(** * Properties of the API calls *)

Ltac case_response r :=
  let c := fresh "c" in
  let E := fresh "E" in
  destruct r as [[c|]| | | |] eqn:E.

(** X16. [call_openai_api] returns the content of the first of its
    three attempts that gets a reply of status 200 with a reachable
    content, whatever that content is (a [null] content makes it return
    [None] after that one request), and sends nothing after it; between
    attempts it waits 2 and then 4 seconds, and not after the last one;
    when no attempt is answered it returns [None] after three requests.
    Without an API key it returns [None] and sends no request at
    all. *)
Theorem call_openai_api_first_answer (responses : nat -> response) :
  let r := call_openai_api true responses in
  match first_answer responses 0 MAX_RETRIES with
  | Some (k, content) =>
      fst r = content /\
      posts (snd r) = S k /\
      waits (snd r) = firstn k [2; 4] /\
      (k = 0%nat -> snd r = [Post])
  | None =>
      fst r = PyNone /\
      posts (snd r) = 3%nat /\
      waits (snd r) = [2; 4]
  end /\
  call_openai_api false responses = (PyNone, [ApiLog Error MsgNoApiKey]).
Proof.
  cbv zeta. unfold call_openai_api, MAX_RETRIES.
  cbn [first_answer call_openai_api_from].
  case_response (responses 0%nat); cbn;
    case_response (responses 1%nat); cbn;
    case_response (responses 2%nat); cbn; repeat split;
    intros; try discriminate; reflexivity.
Qed.

(** X17. [query_gpt5_with_retry] returns the content of the first of its
    three attempts that gets a reply of status 200 with a non-empty
    [choices] and a reachable content, whatever that content is (a
    [null] content makes it log "response received" and return
    [None]), having waited after each earlier attempt 2 seconds, or 2,
    4, 8 seconds by attempt when that attempt was rate limited. When
    none is answered it raises after three requests, and the last
    attempt decides how: a timeout and any other failure raise at once,
    while a rate-limited last attempt still waits its 8 seconds and
    then ends in "Unexpected error in retry logic". *)
Theorem query_gpt5_first_answer (responses : nat -> response) :
  let r := query_gpt5_with_retry true responses in
  match first_answer responses 0 MAX_RETRIES with
  | Some (k, content) =>
      fst r = inl content /\
      posts (snd r) = S k /\
      waits (snd r) = map (fun j => retry_wait (responses j) j) (seq 0 k) /\
      last (snd r) Post = ApiLog Info (MsgResponseReceived (k + 1))
  | None =>
      fst r = inr match responses 2%nat with
                  | Http429 => UnexpectedRetryError
                  | RequestTimeout => TimedOutAfterAllRetries
                  | _ => AllRetryAttemptsFailed
                  end /\
      posts (snd r) = 3%nat /\
      waits (snd r)
      = [retry_wait (responses 0%nat) 0; retry_wait (responses 1%nat) 1]
        ++ match responses 2%nat with Http429 => [8] | _ => [] end
  end.
Proof.
  cbv zeta. unfold query_gpt5_with_retry, MAX_RETRIES.
  cbn [first_answer query_gpt5_from].
  case_response (responses 0%nat); cbn;
    case_response (responses 1%nat); cbn;
    case_response (responses 2%nat); cbn; repeat split;
    rewrite ?E, ?E0, ?E1; reflexivity.
Qed.

(** A reply of status 200 whose content is [null] ends both calls at
    once: one request, no wait, and [None] handed back ([call_openai_api]
    logs nothing, [query_gpt5_with_retry] logs the response as
    received). *)
Example null_content_is_returned (responses : nat -> response) :
  responses 0%nat = Http200 (Some PyNone) ->
  call_openai_api true responses = (PyNone, [Post]) /\
  query_gpt5_with_retry true responses
  = (inl PyNone, [Post; ApiLog Info (MsgResponseReceived 1)]).
Proof.
  intros H. unfold call_openai_api, query_gpt5_with_retry, MAX_RETRIES.
  cbn [call_openai_api_from query_gpt5_from]. rewrite H. split; reflexivity.
Qed.

(** X18. Whatever the API answers, neither call sends more than three
    requests, and the time they spend waiting between attempts is
    bounded: at most 6 seconds for [call_openai_api] and at most 14
    seconds for [query_gpt5_with_retry]. *)
Theorem api_retry_budget (api_key : bool) (responses : nat -> response) :
  (posts (snd (call_openai_api api_key responses)) <= 3)%nat /\
  fold_right Z.add 0 (waits (snd (call_openai_api api_key responses))) <= 6 /\
  (posts (snd (query_gpt5_with_retry api_key responses)) <= 3)%nat /\
  fold_right Z.add 0 (waits (snd (query_gpt5_with_retry api_key responses))) <= 14.
Proof.
  unfold call_openai_api, query_gpt5_with_retry, MAX_RETRIES.
  destruct api_key; [|cbn; repeat split; lia].
  cbn [call_openai_api_from query_gpt5_from].
  case_response (responses 0%nat); cbn;
    case_response (responses 1%nat); cbn;
    case_response (responses 2%nat); cbn; unfold RETRY_DELAY;
    repeat split; lia.
Qed.

(** * The restart window again *)

(** X19. A quiet period renews the budget. When a restart is recorded
    and the crash is handled at least [restart_window] seconds, but
    less than a day, after it, the decision starts from the count 1
    whatever the stored count was: with [max_restarts] at least 1 the
    restart is allowed with the delay [min restart_delay 300]. *)
Theorem quiet_period_renews_budget (cfg : config) (w : world) (s : service)
    (t : datetime) :
  last_restart s = Some t ->
  0 <= now w - t < us_per_day ->
  restart_window cfg <= (now w - t) / us_per_second ->
  1 <= max_restarts cfg ->
  let r := _handle_server_restart cfg w s in
  restart_count (state_of r) = 1 /\
  exists rest,
    trace_of r
    = Log Info (MsgRestarting (Z.min (restart_delay cfg) 300) 1) :: rest.
Proof.
  intros Hl Hday Hw Hm. cbv zeta.
  assert (Hn : next_restart_count cfg s (now w) = 1).
  { unfold next_restart_count, within_restart_window. rewrite Hl.
    rewrite (seconds_below_one_day _ _ Hday).
    apply Z.ltb_ge in Hw. rewrite Hw. reflexivity. }
  split; [rewrite handle_server_restart_count; exact Hn|].
  assert (Hle : next_restart_count cfg s (now w) <= max_restarts cfg) by lia.
  destruct (handle_server_restart_allow cfg w s Hle) as [Ha _].
  rewrite Hn, backoff_delay_first in Ha. exact Ha.
Qed.

Lemma quiet_period_renews_budget_witness :
  let s := restarted_service 205 5 0 in
  let w := crash_world (7200 * us_per_second) 206 in
  last_restart s = Some 0 /\
  restart_count s = 5 /\
  restart_count (state_of (_handle_server_restart default_config w s)) = 1.
Proof.
  cbv zeta. split; [reflexivity|]. split; [reflexivity|].
  apply (quiet_period_renews_budget default_config
           (crash_world (7200 * us_per_second) 206)
           (restarted_service 205 5 0) 0 eq_refl);
    vm_compute; repeat split; intro; discriminate.
Defined.

(** X20. The test of the restart window reads only the [seconds] field
    of the elapsed time, so whole days do not count: handling the same
    crash any number of days later (or earlier) stores the same restart
    count. *)
Theorem restart_decision_ignores_whole_days (cfg : config) (w w' : world)
    (s : service) (k : Z) :
  now w' = now w + k * us_per_day ->
  restart_count (state_of (_handle_server_restart cfg w' s))
  = restart_count (state_of (_handle_server_restart cfg w s)).
Proof.
  intros Hk. rewrite !handle_server_restart_count.
  unfold next_restart_count, within_restart_window.
  destruct (last_restart s) as [t|]; [|reflexivity].
  unfold datetime_sub. cbn [seconds]. rewrite Hk.
  replace (now w + k * us_per_day - t) with (now w - t + k * us_per_day) by lia.
  rewrite Z_mod_plus_full. reflexivity.
Qed.

Lemma restart_decision_ignores_whole_days_witness :
  let s := restarted_service 200 2 0 in
  restart_count
    (state_of (_handle_server_restart default_config
                 (crash_world (10 * us_per_second + 3 * us_per_day) 201) s))
  = restart_count
      (state_of (_handle_server_restart default_config
                   (crash_world (10 * us_per_second) 201) s)).
Proof.
  cbv zeta.
  apply (restart_decision_ignores_whole_days default_config
           (crash_world (10 * us_per_second) 201)
           (crash_world (10 * us_per_second + 3 * us_per_day) 201)
           (restarted_service 200 2 0) 3).
  reflexivity.
Defined.

(** X21. With a restart window of a day or more the count is never
    reset once a restart is recorded: every later crash, however long
    after, counts one more. *)
Theorem long_window_never_resets (cfg : config) (w : world) (s : service)
    (t : datetime) :
  86400 <= restart_window cfg ->
  last_restart s = Some t ->
  restart_count (state_of (_handle_server_restart cfg w s))
  = restart_count s + 1.
Proof.
  intros Hw Hl. rewrite handle_server_restart_count.
  unfold next_restart_count, within_restart_window. rewrite Hl.
  assert (H : seconds (datetime_sub (now w) t) < restart_window cfg).
  { unfold datetime_sub. cbn [seconds].
    apply Z.lt_le_trans with 86400; [|exact Hw].
    apply Z.div_lt_upper_bound; [exact us_per_second_pos|].
    pose proof (Z.mod_pos_bound (now w - t) us_per_day us_per_day_pos) as Hb.
    unfold us_per_day in *. lia. }
  apply Z.ltb_lt in H. rewrite H. reflexivity.
Qed.

Lemma long_window_never_resets_witness :
  let cfg := mk_config true 30 5 86400 60 true 15 2048 in
  let s := restarted_service 200 2 0 in
  86400 <= restart_window cfg /\
  restart_count
    (state_of (_handle_server_restart cfg
                 (crash_world (400 * us_per_day) 201) s)) = 3.
Proof.
  cbv zeta.
  assert (H : 86400 <= restart_window (mk_config true 30 5 86400 60 true 15 2048))
    by (vm_compute; intro; discriminate).
  split; [exact H|].
  exact (long_window_never_resets (mk_config true 30 5 86400 60 true 15 2048)
           (crash_world (400 * us_per_day) 201) (restarted_service 200 2 0) 0
           H eq_refl).
Defined.

(** * [SvcDoRun] after a stop *)

(** X22. [SvcDoRun] launches the worker without looking at [is_alive].
    When a stop has already been carried out, it still starts the
    worker (and the monitor thread, when enabled), then finds the loop
    condition false and ends without a single wait: the worker is left
    running by a service that has stopped. *)
Theorem SvcDoRun_launches_when_stopped (cfg : config) (w0 : world)
    (ws : list world) (s : service) (q : Z) :
  is_alive s = false ->
  launch w0 = LaunchOk q ->
  let r := SvcDoRun cfg w0 ws s in
  result_of r = Ok true /\
  launches (trace_of r) = 1%nat /\
  server_process (state_of r) = Some q /\
  is_alive (state_of r) = false /\
  filter (fun e => match e with
                   | WaitForSingleObject _ | Terminate _ | Kill _ => true
                   | _ => false
                   end) (trace_of r) = [] /\
  last (trace_of r) SetEvent = Log Info MsgExecutionCompleted.
Proof.
  intros Halive Hq. cbv zeta.
  assert (Hloop : forall s', is_alive s' = false ->
                    service_loop cfg ws s' = (Ok true, s', [])).
  { intros s' H. destruct ws; cbn [service_loop]; unfold_monad;
      rewrite H; reflexivity. }
  unfold SvcDoRun. run. rewrite Hq. unfold_monad. cbn [app].
  destruct (enable_monitoring cfg); unfold_monad; cbn [app];
    rewrite Hloop by (fields; exact Halive); fields; repeat split;
    exact Halive.
Qed.

Lemma SvcDoRun_launches_when_stopped_witness :
  let s := set_is_alive false init_service in
  let r := SvcDoRun default_config (crash_world 0 200) [crash_world 1 200] s in
  is_alive s = false /\
  launches (trace_of r) = 1%nat /\
  server_process (state_of r) = Some 200.
Proof.
  cbv zeta.
  destruct (SvcDoRun_launches_when_stopped default_config (crash_world 0 200)
              [crash_world 1 200] (set_is_alive false init_service) 200
              eq_refl eq_refl) as (_ & H2 & H3 & _).
  exact (conj eq_refl (conj H2 H3)).
Defined.

(** * The API key *)

Section ApiKeyFacts.
Variable isspace : N -> bool.

Lemma startswith_nonempty p v :
  p <> [] -> startswith p v = true -> v <> [].
Proof. destruct p, v; cbn; congruence. Qed.

Lemma startswith_rstrip p :
  forall v,
    p <> [] ->
    isspace (last p 0%N) = false ->
    startswith p v = true ->
    startswith p (rstrip isspace v) = true.
Proof.
  induction p as [|a p IH]; intros v Hp Hlast Hs; [congruence|].
  destruct v as [|c v]; [discriminate|].
  cbn [startswith] in Hs. apply andb_true_iff in Hs. destruct Hs as [Hac Hs].
  cbn [rstrip]. destruct p as [|b p].
  - cbn [last] in Hlast. apply N.eqb_eq in Hac. subst c. rewrite Hlast.
    destruct (rstrip isspace v); cbn [startswith]; rewrite N.eqb_refl;
      reflexivity.
  - assert (Hr : startswith (b :: p) (rstrip isspace v) = true)
      by (apply IH; [discriminate | exact Hlast | exact Hs]).
    destruct (rstrip isspace v) as [|r rs]; [discriminate|].
    cbn [startswith] in *. rewrite Hac. exact Hr.
Qed.

Lemma rstrip_idempotent v : rstrip isspace (rstrip isspace v) = rstrip isspace v.
Proof.
  induction v as [|c v IH]; [reflexivity|].
  cbn [rstrip]. destruct (rstrip isspace v) as [|r rs] eqn:Hr.
  - destruct (isspace c) eqn:Hc; [reflexivity|].
    cbn [rstrip]. rewrite Hc. reflexivity.
  - change (rstrip isspace (c :: r :: rs))
      with (match rstrip isspace (r :: rs) with
            | [] => if isspace c then [] else [c]
            | rest' => c :: rest'
            end).
    rewrite IH. reflexivity.
Qed.

Lemma lstrip_nonspace c v : isspace c = false -> lstrip isspace (c :: v) = c :: v.
Proof. intros H. cbn [lstrip]. rewrite H. reflexivity. Qed.

(** What [key_of] returns for a value. *)
Lemma key_of_some value k :
  isspace 115%N = false ->
  isspace 45%N = false ->
  key_of isspace value = Some k ->
  exists v, value = Some v /\
            startswith sk_prefix v = true /\
            k = rstrip isspace v /\
            startswith sk_prefix k = true /\
            strip isspace k = k.
Proof.
  intros Hs Hd. unfold key_of.
  destruct value as [v|]; [|discriminate].
  destruct v as [|c v]; [discriminate|].
  destruct (strip isspace (c :: v)) as [|x xs] eqn:Hstrip; [discriminate|].
  destruct (startswith sk_prefix (c :: v)) eqn:Hsw; [|discriminate].
  intros Hk. inversion Hk; subst k. clear Hk.
  assert (Hc : c = 115%N).
  { unfold sk_prefix in Hsw. cbn [startswith] in Hsw.
    apply andb_true_iff in Hsw. destruct Hsw as [H _].
    apply N.eqb_eq in H. congruence. }
  subst c.
  assert (Hstrip' : strip isspace (115%N :: v) = rstrip isspace (115%N :: v))
    by (unfold strip; rewrite lstrip_nonspace by exact Hs; reflexivity).
  assert (Hk : startswith sk_prefix (rstrip isspace (115%N :: v)) = true)
    by (apply startswith_rstrip; [discriminate | exact Hd | exact Hsw]).
  exists (115%N :: v). rewrite <- Hstrip, Hstrip'.
  repeat split; trivial.
  unfold strip.
  destruct (rstrip isspace (115%N :: v)) as [|y ys] eqn:Hr; [discriminate|].
  assert (Hy : y = 115%N).
  { unfold sk_prefix in Hk. cbn [startswith] in Hk.
    apply andb_true_iff in Hk. destruct Hk as [H _].
    apply N.eqb_eq in H. congruence. }
  subst y. rewrite lstrip_nonspace by exact Hs.
  rewrite <- Hr. apply rstrip_idempotent.
Qed.

Lemma key_of_leading_space value :
  isspace 115%N = false ->
  match value with
  | Some (c :: _) => isspace c = true
  | _ => True
  end ->
  key_of isspace value = None.
Proof.
  intros Hs. unfold key_of.
  destruct value as [[|c v]|]; trivial. intros Hc.
  destruct (strip isspace (c :: v)); [reflexivity|].
  destruct (startswith sk_prefix (c :: v)) eqn:Hsw; [|reflexivity].
  unfold sk_prefix in Hsw. cbn [startswith] in Hsw.
  apply andb_true_iff in Hsw. destruct Hsw as [H _].
  apply N.eqb_eq in H. congruence.
Qed.
End ApiKeyFacts.

(** X23. The key [get_openai_api_key] returns comes from one of the two
    variables, whose value begins with [sk-], and is that value without
    its trailing whitespace: it begins with [sk-] and stripping it
    again changes nothing. The prefix is tested on the value as it is,
    before stripping, so a value that begins with whitespace is never
    accepted: when both variables are unset, empty or begin with
    whitespace, no key is found. *)
Theorem api_key_is_clean (isspace : N -> bool)
    (environ : key_var -> option (list N)) :
  isspace 115%N = false ->
  isspace 45%N = false ->
  (forall k,
     get_openai_api_key isspace environ = Some k ->
     startswith sk_prefix k = true /\
     strip isspace k = k /\
     exists var v,
       environ var = Some v /\
       startswith sk_prefix v = true /\
       k = rstrip isspace v) /\
  ((forall var, match environ var with
                | Some (c :: _) => isspace c = true
                | _ => True
                end) ->
   get_openai_api_key isspace environ = None).
Proof.
  intros Hs Hd. split.
  - intros k. unfold get_openai_api_key.
    destruct (key_of isspace (environ OPENAI_API_KEY)) as [k1|] eqn:H1.
    + intros Hk. inversion Hk; subst k1.
      destruct (key_of_some isspace _ _ Hs Hd H1) as (v & Hv & Hsv & Hkv & Hsk & Hst).
      repeat split; trivial. exists OPENAI_API_KEY, v. auto.
    + intros H2.
      destruct (key_of_some isspace _ _ Hs Hd H2) as (v & Hv & Hsv & Hkv & Hsk & Hst).
      repeat split; trivial. exists CHATGPT_COOKIE, v. auto.
  - intros Hall. unfold get_openai_api_key.
    rewrite (key_of_leading_space isspace _ Hs (Hall OPENAI_API_KEY)).
    apply (key_of_leading_space isspace _ Hs (Hall CHATGPT_COOKIE)).
Qed.

Lemma api_key_is_clean_witness :
  let isspace := fun c => N.eqb c 32 in
  let environ := fun var =>
                   match var with
                   | OPENAI_API_KEY => Some [32; 115; 107; 45; 97]%N
                   | CHATGPT_COOKIE => None
                   end in
  isspace 115%N = false /\
  get_openai_api_key isspace environ = None.
Proof.
  cbv zeta. split; [reflexivity|].
  apply (proj2 (api_key_is_clean (fun c => N.eqb c 32)
                  (fun var => match var with
                              | OPENAI_API_KEY => Some [32; 115; 107; 45; 97]%N
                              | CHATGPT_COOKIE => None
                              end)
                  eq_refl eq_refl)).
  intros [|]; [reflexivity|exact I].
Defined.
